(** * convert_gps.py: a shallow embedding and its verified properties

    The program polls a text file for the last [$GPGLL] sentence, converts the
    two coordinate fields from degrees-minutes to decimal degrees, redraws a
    status line on the terminal and appends a record to [debug.log].

    Layout of this development:
    - [Py]: the Python built-ins the program calls ([float], [round], [repr]
      of a float, [repr] of a string, [int], [str.split], [str.startswith]),
      over IEEE binary64 as specified by the Standard Library's [SpecFloat];
    - the three functions of the source ([flush_to_file],
      [convert_to_decimal_deg], [fancy_waiting]) and the command line;
    - the poll loop as a state-and-exception monad over the program variables
      and the trace of observable events;
    - the theorems.

    Strings are sequences of the code points 0 to 255, which covers the
    ASCII text of NMEA sentences. The built-ins and the exception messages
    are those of CPython 3.11 on Linux. The outside world enters one
    iteration at a time as an [env]: the wall clock, the lines of the polled
    file (or the failure of [open]), the state of [debug.log] and the
    monotonic clock that [time.sleep] adds its interval to; what the program
    does to the terminal, the log and the clock is recorded as a trace of
    events. *)

From Stdlib Require Import ZArith List String Ascii Bool Lia.
From Stdlib Require Import SpecFloat.
Import ListNotations.

Local Open Scope string_scope.
Local Open Scope Z_scope.

(** ** Python exceptions *)

Inductive exn_kind :=
| NameError | UnboundLocalError | IndexError | ValueError | OverflowError
| OSError.

Record exn := mkExn { exn_kind_of : exn_kind; exn_message : string }.

(** The classes an [except Exception] clause catches: every class this
    program can raise derives from [Exception]. *)
Definition is_Exception (k : exn_kind) : bool :=
  match k with
  | NameError | UnboundLocalError | IndexError | ValueError | OverflowError
  | OSError => true
  end.

Inductive result (A : Type) :=
| Ok (a : A)
| Raise (e : exn).
Arguments Ok {A} a.
Arguments Raise {A} e.

Definition rbind {A B} (r : result A) (k : A -> result B) : result B :=
  match r with
  | Ok a => k a
  | Raise e => Raise e
  end.

Declare Scope result_scope.
Delimit Scope result_scope with result.
Notation "x <- r ;; k" := (rbind r (fun x => k))
  (at level 61, r at next level, right associativity) : result_scope.

(** ** Python built-ins *)

Module Py.

(** *** Characters and strings *)

Definition code (c : ascii) : Z := Z.of_N (N_of_ascii c).

Definition is_digit (c : ascii) : bool := (48 <=? code c) && (code c <=? 57).

Definition digit_val (c : ascii) : Z := code c - 48.

(** The blanks that [float] and [int] strip from both ends of a string:
    the C blanks 9 to 13 and 32 and, among the code points above 127, the
    two Unicode blanks 133 and 160. The separators 28 to 31 are no blanks
    for them. *)
Definition is_space (c : ascii) : bool :=
  ((9 <=? code c) && (code c <=? 13)) || (code c =? 32)
  || (code c =? 133) || (code c =? 160).

Definition lower (c : ascii) : ascii :=
  if (65 <=? code c) && (code c <=? 90)
  then ascii_of_N (N_of_ascii c + 32) else c.

Definition chars (s : string) : list ascii := list_ascii_of_string s.

Definition str1 (c : ascii) : string := String c EmptyString.

(** [s[i]] for a non-negative constant index. *)
Definition str_index (s : string) (i : nat) : result string :=
  match String.get i s with
  | Some c => Ok (str1 c)
  | None => Raise (mkExn IndexError "string index out of range")
  end.

(** [l[i]] for a non-negative constant index. *)
Definition list_index (l : list string) (i : nat) : result string :=
  match nth_error l i with
  | Some x => Ok x
  | None => Raise (mkExn IndexError "list index out of range")
  end.

Fixpoint update (l : list string) (i : nat) (v : string) : list string :=
  match l, i with
  | [], _ => []
  | _ :: t, O => v :: t
  | h :: t, S j => h :: update t j v
  end.

(** [l[i] = v] for a non-negative constant index. *)
Definition list_assign (l : list string) (i : nat) (v : string)
  : result (list string) :=
  if (i <? List.length l)%nat then Ok (update l i v)
  else Raise (mkExn IndexError "list assignment index out of range").

(** [s.startswith(p)]. *)
Definition startswith (s p : string) : bool := String.prefix p s.

(** [s.split(sep)] for a one-character separator: never empty. *)
Fixpoint split (sep : ascii) (s : string) : list string :=
  match s with
  | EmptyString => [EmptyString]
  | String c rest =>
      if Ascii.eqb c sep then EmptyString :: split sep rest
      else match split sep rest with
           | [] => [str1 c]
           | w :: ws => String c w :: ws
           end
  end.

Fixpoint repeat_char (c : ascii) (n : nat) : string :=
  match n with
  | O => EmptyString
  | S k => String c (repeat_char c k)
  end.

(** *** Decimal numerals *)

Definition digit_char (d : Z) : ascii := ascii_of_N (Z.to_N (48 + d)).

Fixpoint digits_of_pos_fuel (fuel : nat) (n : Z) (acc : string) : string :=
  match fuel with
  | O => acc
  | S f =>
      let acc' := String (digit_char (n mod 10)) acc in
      if n <? 10 then acc' else digits_of_pos_fuel f (n / 10) acc'
  end.

(** The decimal numeral of a non-negative integer ([str(n)]); a numeral has
    no more digits than the number has bits. *)
Definition digits_of_Z (n : Z) : string :=
  digits_of_pos_fuel (S (Z.to_nat (Z.log2 n))) n EmptyString.

Fixpoint Z_of_digits (acc : Z) (l : list ascii) : Z :=
  match l with
  | [] => acc
  | c :: t => Z_of_digits (10 * acc + digit_val c) t
  end.

Fixpoint span_digits (l : list ascii) : list ascii * list ascii :=
  match l with
  | c :: t =>
      if is_digit c then let (d, r) := span_digits t in (c :: d, r)
      else ([], l)
  | [] => ([], [])
  end.

Fixpoint lstrip (l : list ascii) : list ascii :=
  match l with
  | c :: t => if is_space c then lstrip t else l
  | [] => []
  end.

Definition rstrip (l : list ascii) : list ascii := rev (lstrip (rev l)).

(** *** [repr] of a string, as it appears in exception messages. *)

Definition hex_digit (d : Z) : ascii :=
  if d <? 10 then digit_char d else ascii_of_N (Z.to_N (87 + d)).

Definition repr_char (quote : ascii) (c : ascii) : string :=
  if Ascii.eqb c quote || Ascii.eqb c "\"%char then String "\"%char (str1 c)
  else if code c =? 9 then "\t"
  else if code c =? 10 then "\n"
  else if code c =? 13 then "\r"
  else if (code c <? 32) || ((127 <=? code c) && (code c <=? 160))
          || (code c =? 173) then
    String "\"%char (String "x"%char
      (String (hex_digit (code c / 16)) (str1 (hex_digit (code c mod 16)))))
  else str1 c.

Definition repr_str (s : string) : string :=
  let has q := existsb (Ascii.eqb q) (chars s) in
  let quote := if has "'"%char && negb (has "034"%char)
               then "034"%char else "'"%char in
  str1 quote ++ String.concat "" (map (repr_char quote) (chars s)) ++ str1 quote.

(** *** IEEE binary64 *)

Definition prec : Z := 53.
Definition emax : Z := 1024.

Definition fadd : spec_float -> spec_float -> spec_float := SFadd prec emax.
Definition fdiv : spec_float -> spec_float -> spec_float := SFdiv prec emax.

(** [float(n)] for an integer [n]. *)
Definition of_Z (n : Z) : spec_float := binary_normalize prec emax n 0 false.

(** The double nearest to [(-1)^neg * m * 10^e10] (ties to even), which is
    what the C library's [strtod] returns for a decimal numeral. *)
Definition of_decimal (neg : bool) (m : Z) (e10 : Z) : spec_float :=
  match m with
  | Zpos p =>
      if 0 <=? e10
      then binary_normalize prec emax (cond_Zopp neg (m * 10 ^ e10)) 0 false
      else SFdiv prec emax (S754_finite neg p 0)
                           (S754_finite false (Z.to_pos (10 ^ (- e10))) 0)
  | _ => S754_zero neg
  end.

Definition float_eqb (x y : spec_float) : bool :=
  match x, y with
  | S754_zero a, S754_zero b => Bool.eqb a b
  | S754_infinity a, S754_infinity b => Bool.eqb a b
  | S754_nan, S754_nan => true
  | S754_finite a m e, S754_finite b n f =>
      Bool.eqb a b && Pos.eqb m n && Z.eqb e f
  | _, _ => false
  end.

(** *** [float(s)] *)

(** Underscores may only stand between two digits. *)
Fixpoint drop_underscores (prev : ascii) (l : list ascii)
  : option (list ascii) :=
  match l with
  | [] => if Ascii.eqb prev "_" then None else Some []
  | c :: t =>
      if Ascii.eqb c "_" then
        if is_digit prev then drop_underscores c t else None
      else if Ascii.eqb prev "_" && negb (is_digit c) then None
      else option_map (cons c) (drop_underscores c t)
  end.

Definition take_sign (l : list ascii) : bool * list ascii :=
  match l with
  | "-"%char :: t => (true, t)
  | "+"%char :: t => (false, t)
  | _ => (false, l)
  end.

(** [word] is lower case; the rest of [l] after it, compared without case. *)
Fixpoint match_nocase (word l : list ascii) : option (list ascii) :=
  match word, l with
  | [], _ => Some l
  | w :: ws, c :: t => if Ascii.eqb w (lower c) then match_nocase ws t else None
  | _ :: _, [] => None
  end.

Definition parse_inf_or_nan (l : list ascii) : option spec_float :=
  let (neg, r) := take_sign l in
  match match_nocase (chars "inf") r with
  | Some r1 =>
      let r2 := match match_nocase (chars "inity") r1 with
                | Some r' => r' | None => r1 end in
      match r2 with [] => Some (S754_infinity neg) | _ => None end
  | None =>
      match match_nocase (chars "nan") r with
      | Some [] => Some S754_nan
      | _ => None
      end
  end.

(** The exponent part: consumed only when it has a digit. *)
Definition parse_exponent (l : list ascii) : Z * list ascii :=
  match l with
  | c :: t =>
      if Ascii.eqb (lower c) "e" then
        let (eneg, t1) := take_sign t in
        let (ds, r) := span_digits t1 in
        match ds with
        | [] => (0, l)
        | _ => (cond_Zopp eneg (Z_of_digits 0 ds), r)
        end
      else (0, l)
  | [] => (0, l)
  end.

Definition parse_decimal (l : list ascii) : option spec_float :=
  let (neg, r0) := take_sign l in
  let (ip, r1) := span_digits r0 in
  let (fp, r2) := match r1 with
                  | "."%char :: t => span_digits t
                  | _ => ([], r1)
                  end in
  match (ip ++ fp)%list with
  | [] => None
  | ds =>
      let (e, r3) := parse_exponent r2 in
      match r3 with
      | [] => Some (of_decimal neg (Z_of_digits 0 ds)
                               (e - Z.of_nat (List.length fp)))
      | _ => None
      end
  end.

Definition float_of_chars (l : list ascii) : option spec_float :=
  match drop_underscores "000"%char l with
  | None => None
  | Some l1 =>
      match rstrip (lstrip l1) with
      | [] => None
      | body =>
          match parse_decimal body with
          | Some x => Some x
          | None => parse_inf_or_nan body
          end
      end
  end.

(** [float(s)]: [ValueError] when [s] is no float literal. *)
Definition float (s : string) : result spec_float :=
  match float_of_chars (chars s) with
  | Some x => Ok x
  | None =>
      Raise (mkExn ValueError
                   ("could not convert string to float: " ++ repr_str s))
  end.

(** *** [round(x, ndigits)] and [repr(x)] for a float *)

(** Round-half-even of the non-negative fraction [n / d]. *)
Definition rne_div (n d : Z) : Z :=
  let q := n / d in
  match (2 * (n mod d)) ?= d with
  | Lt => q
  | Gt => q + 1
  | Eq => if Z.even q then q else q + 1
  end.

(** Round-half-even of [m * 2^e * 10^s]. *)
Definition scaled_rne (m : positive) (e s : Z) : Z :=
  let n := Zpos m * (if 0 <=? e then 2 ^ e else 1)
                  * (if 0 <=? s then 10 ^ s else 1) in
  let d := (if 0 <=? e then 1 else 2 ^ (- e))
           * (if 0 <=? s then 1 else 10 ^ (- s)) in
  rne_div n d.

(** [round(x, ndigits)] for [0 <= ndigits]: the exact value of [x] is
    rounded half-even to [ndigits] decimals and the decimal read back. *)
Definition round (x : spec_float) (ndigits : Z) : spec_float :=
  match x with
  | S754_finite s m e =>
      if 323 <? ndigits then x
      else of_decimal s (scaled_rne m e ndigits) (- ndigits)
  | _ => x
  end.

Fixpoint strip_trailing_zeros_rev (l : list ascii) : list ascii :=
  match l with
  | "0"%char :: t => strip_trailing_zeros_rev t
  | _ => l
  end.

Definition strip_trailing_zeros (s : string) : string :=
  string_of_list_ascii (rev (strip_trailing_zeros_rev (rev (chars s)))).

Fixpoint below_one_exponent (fuel : nat) (n d : Z) (j : Z) : Z :=
  match fuel with
  | O => j
  | S f => if d <=? n * 10 then j else below_one_exponent f (n * 10) d (j - 1)
  end.

(** [floor (log10 (m * 2^e))]. *)
Definition decimal_exponent (m : positive) (e : Z) : Z :=
  let n := Zpos m * (if 0 <=? e then 2 ^ e else 1) in
  let d := if 0 <=? e then 1 else 2 ^ (- e) in
  if d <=? n then Z.of_nat (String.length (digits_of_Z (n / d))) - 1
  else below_one_exponent 400 n d (-1).

(** The [k]-digit decimal nearest to [m * 2^e]: its digits without trailing
    zeros and the position of its decimal point, when it reads back as the
    same double. *)
Definition candidate (m : positive) (e : Z) (k : Z) : option (string * Z) :=
  let s := k - 1 - decimal_exponent m e in
  let q := scaled_rne m e s in
  if float_eqb (of_decimal false q (- s)) (S754_finite false m e)
  then Some (strip_trailing_zeros (digits_of_Z q),
             Z.of_nat (String.length (digits_of_Z q)) - s)
  else None.

Fixpoint shortest (m : positive) (e : Z) (ks : list Z) : string * Z :=
  match ks with
  | [] => (digits_of_Z (Zpos m), 0)
  | k :: rest =>
      match candidate m e k with
      | Some r => r
      | None => shortest m e rest
      end
  end.

Definition exponent_field (x : Z) : string :=
  (if x <? 0 then "-" else "+")
  ++ (if Z.abs x <? 10 then "0" else "") ++ digits_of_Z (Z.abs x).

Definition layout (ds : string) (decpt : Z) : string :=
  let n := Z.of_nat (String.length ds) in
  if (decpt <? -3) || (16 <? decpt) then
    match ds with
    | String c EmptyString => str1 c
    | String c rest => String c ("." ++ rest)
    | EmptyString => EmptyString
    end ++ "e" ++ exponent_field (decpt - 1)
  else if decpt <=? 0 then
    "0." ++ repeat_char "0" (Z.to_nat (- decpt)) ++ ds
  else if n <=? decpt then
    ds ++ repeat_char "0" (Z.to_nat (decpt - n)) ++ ".0"
  else
    substring 0 (Z.to_nat decpt) ds ++ "."
    ++ substring (Z.to_nat decpt) (Z.to_nat (n - decpt)) ds.

(** [repr(x)], which is also [str(x)] and what an f-string prints: the
    shortest decimal that reads back as [x]. *)
Definition repr_float (x : spec_float) : string :=
  match x with
  | S754_zero s => if s then "-0.0" else "0.0"
  | S754_infinity s => if s then "-inf" else "inf"
  | S754_nan => "nan"
  | S754_finite s m e =>
      let (ds, decpt) :=
        shortest m e [1; 2; 3; 4; 5; 6; 7; 8; 9; 10; 11; 12; 13; 14; 15; 16; 17] in
      (if s then "-" else "") ++ layout ds decpt
  end.

(** *** [int(s)] *)

Fixpoint int_digits (prev : ascii) (l : list ascii)
  : option (list ascii * list ascii) :=
  match l with
  | c :: t =>
      if Ascii.eqb c "_" then
        if Ascii.eqb prev "_" then None else int_digits c t
      else if is_digit c then
        match int_digits c t with
        | Some (ds, r) => Some (c :: ds, r)
        | None => None
        end
      else if Ascii.eqb prev "_" then None else Some ([], l)
  | [] => if Ascii.eqb prev "_" then None else Some ([], [])
  end.

(** [int(s)] in base ten: blanks, a sign, digits with single underscores
    between them, blanks; at most 4300 digits. [None] is [ValueError]. *)
Definition int (s : string) : option Z :=
  let (neg, r) := take_sign (lstrip (chars s)) in
  match r with
  | "_"%char :: _ => None
  | _ =>
      match int_digits "000"%char r with
      | Some (c :: ds, rest) =>
          match lstrip rest with
          | [] =>
              if (4300 <? List.length (c :: ds))%nat then None
              else Some (cond_Zopp neg (Z_of_digits 0 (c :: ds)))
          | _ => None
          end
      | _ => None
      end
  end.

End Py.

(** ** The command line *)

(** The value of [--time]: [type=int] yields an integer, the default [1.01]
    is a float that argparse leaves as it is (only string defaults are
    converted). *)
Inductive interval :=
| IntSeconds (n : Z)
| FloatSeconds (x : spec_float).

(** The dictionary [args], with its two keys. *)
Record args := mkArgs { time : interval; output : string }.

Inductive cli :=
| Parsed (a : args)
| UsageError (status : Z) (msg : string).

(** [parser.parse_args()] on the values given to [-o/--output] and
    [-t/--time] ([None]: the flag is absent). A value that [int] refuses
    makes argparse print a usage error and exit with status 2. *)
Definition parse_args (output_value time_value : option string) : cli :=
  let o := match output_value with Some s => s | None => "putty.log" end in
  match time_value with
  | None => Parsed (mkArgs (FloatSeconds (Py.of_decimal false 101 (-2))) o)
  | Some s =>
      match Py.int s with
      | Some n => Parsed (mkArgs (IntSeconds n) o)
      | None =>
          UsageError 2 ("argument -t/--time: invalid int value: "
                        ++ Py.repr_str s)
      end
  end.

(** ** Observable events *)

Inductive event :=
| Print (line : string)
| Append (log_file msg : string)
| Sleep (d : interval).

(** What one iteration finds outside the program: the wall clock, the
    polled file (its lines, or the message of the [OSError] that [open]
    raises), whether [debug.log] can be opened for appending, and the
    reading of the monotonic clock, in nanoseconds, when [time.sleep] is
    called. *)
Inductive polled :=
| Readable (lines : list string)
| Unreadable (msg : string).

Record env := mkEnvAt {
  now : string;
  file : polled;
  log_failure : option string;
  monotonic : Z
}.

(** An environment one hour after the machine started. *)
Definition mkEnv (now : string) (file : polled) (log_failure : option string)
  : env :=
  mkEnvAt now file log_failure 3600000000000.

(** ** The functions of the source *)

Definition ESC : string := String "027"%char EmptyString.
Definition NL : string := String "010"%char EmptyString.

Definition convert_to_decimal_deg (term long_or_lat : string)
  : result string :=
  (fields <-
     (if String.eqb long_or_lat "lat" then
        c0 <- Py.str_index term 0;;
        c1 <- Py.str_index term 1;;
        DD <- Py.float (c0 ++ c1);;
        c2 <- Py.str_index term 2;;
        c3 <- Py.str_index term 3;;
        c5 <- Py.str_index term 5;;
        c6 <- Py.str_index term 6;;
        Ok (Some (DD, c2 ++ c3, c5 ++ c6))
      else if String.eqb long_or_lat "long" then
        c0 <- Py.str_index term 0;;
        c1 <- Py.str_index term 1;;
        c2 <- Py.str_index term 2;;
        DD <- Py.float (c0 ++ c1 ++ c2);;
        c3 <- Py.str_index term 3;;
        c4 <- Py.str_index term 4;;
        c6 <- Py.str_index term 6;;
        c7 <- Py.str_index term 7;;
        Ok (Some (DD, c3 ++ c4, c6 ++ c7))
      else Ok None);;
   match fields with
   | None =>
       Raise (mkExn UnboundLocalError
         "cannot access local variable 'mm_1' where it is not associated with a value")
   | Some (DD, mm_1, mm_2) =>
       deci <- Py.float (mm_1 ++ "." ++ mm_2);;
       Ok (Py.repr_float
             (Py.round (Py.fadd DD (Py.fdiv deci (Py.of_Z 60))) 3))
   end)%result.

Definition fancy_waiting (msg : string) (i : Z) : string :=
  if i =? 0 then msg ++ "."
  else if i =? 1 then msg ++ ".."
  else if i =? 2 then msg ++ "..."
  else msg ++ "...".

(** ** The poll loop *)

(** The module-level variables the loop reads and writes, and the events
    emitted so far. [parts] is [None] until the first [$GPGLL] line is seen;
    it names one list object, assigned to in place, that stays bound from one
    iteration to the next. *)
Record machine := mkMachine {
  parts : option (list string);
  error : Z;
  it : Z;
  trace : list event
}.

Definition initial : machine := mkMachine None 0 (-1) [].

(** Statements: they update the machine and return or raise. *)
Definition M (A : Type) : Type := machine -> result A * machine.

Definition ret {A} (a : A) : M A := fun m => (Ok a, m).

Definition bind {A B} (c : M A) (k : A -> M B) : M B :=
  fun m => match c m with
           | (Ok a, m') => k a m'
           | (Raise e, m') => (Raise e, m')
           end.

Definition lift {A} (r : result A) : M A := fun m => (r, m).

Declare Scope stmt_scope.
Delimit Scope stmt_scope with stmt.
Notation "x <- c ;; k" := (bind c (fun x => k))
  (at level 61, c at next level, right associativity) : stmt_scope.
Notation "c ;; k" := (bind c (fun _ => k))
  (at level 61, right associativity) : stmt_scope.

Definition emit (l : list event) : M unit :=
  fun m => (Ok tt, mkMachine (parts m) (error m) (it m) (trace m ++ l)).

Definition set_parts (l : list string) : M unit :=
  fun m => (Ok tt, mkMachine (Some l) (error m) (it m) (trace m)).

Definition set_error (v : Z) : M unit :=
  fun m => (Ok tt, mkMachine (parts m) v (it m) (trace m)).

Definition get_error : M Z := fun m => (Ok (error m), m).

Definition get_it : M Z := fun m => (Ok (it m), m).

(** [flush_to_file(msg, log_file)]: one append, unless the log cannot be
    opened. *)
Definition flush_to_file (w : env) (msg log_file : string) : M unit :=
  match log_failure w with
  | Some m => lift (Raise (mkExn OSError m))
  | None => emit [Append log_file msg]
  end.

(** Reading the name [parts]. *)
Definition get_parts : M (list string) :=
  fun m => match parts m with
           | Some l => (Ok l, m)
           | None => (Raise (mkExn NameError "name 'parts' is not defined"), m)
           end.

(** [parts[i]]. *)
Definition parts_at (i : nat) : M string :=
  (l <- get_parts;; lift (Py.list_index l i))%stmt.

(** [parts[i] = v]. *)
Definition parts_assign (i : nat) (v : string) : M unit :=
  (l <- get_parts;; l' <- lift (Py.list_assign l i v);; set_parts l')%stmt.

(** [for line in f: if line.startswith("$GPGLL"): parts = line.split(",")].
    The second name [last_gpgll_line] of the same list is never read. *)
Fixpoint scan (lines : list string) : M unit :=
  match lines with
  | [] => ret tt
  | line :: rest =>
      ((if Py.startswith line "$GPGLL"
        then set_parts (Py.split ","%char line) else ret tt);;
       scan rest)%stmt
  end.

Definition read_file (w : env) : M unit :=
  match file w with
  | Readable lines => scan lines
  | Unreadable msg => lift (Raise (mkExn OSError msg))
  end.

Definition nonempty (s : string) : bool := negb (String.eqb s EmptyString).

(** The interval of [time.sleep] in nanoseconds, a signed 64-bit count.
    An integer number of seconds must fit after the multiplication by
    [10^9]. A float is multiplied by [10^9] as a float and rounded away
    from zero; the product [2^63] passes the range check and its conversion
    to 64 bits yields the most negative count. A negative count is refused
    after the conversion. *)
Definition timeout_ns (d : interval) : result Z :=
  let overflow :=
    Raise (mkExn OverflowError
                 "timestamp too large to convert to C _PyTime_t") in
  let negative_length :=
    Raise (mkExn ValueError "sleep length must be non-negative") in
  match d with
  | IntSeconds n =>
      if (n <? -9223372036) || (9223372036 <? n) then overflow
      else if n <? 0 then negative_length
      else Ok (n * 1000000000)
  | FloatSeconds S754_nan =>
      Raise (mkExn ValueError "Invalid value NaN (not a number)")
  | FloatSeconds x =>
      match SFmul Py.prec Py.emax x (Py.of_Z 1000000000) with
      | S754_zero _ => Ok 0
      | S754_finite s m e =>
          let num := Zpos m * (if 0 <=? e then 2 ^ e else 1) in
          let den := if 0 <=? e then 1 else 2 ^ (- e) in
          if 2 ^ 63 * den <? num then overflow
          else if s then negative_length
          else if 2 ^ 63 * den =? num then negative_length
          else Ok ((num + den - 1) / den)
      | _ => overflow
      end
  end.

(** The first second the kernel refuses as a deadline. *)
Definition deadline_limit : Z := 9223372036 * 1000000000.

(** [time.sleep(d)]: the interval is converted, then the program waits
    until the monotonic clock reaches its present reading plus the
    interval; a deadline the kernel refuses raises [OSError]. *)
Definition sleep (w : env) (d : interval) : M unit :=
  match timeout_ns d with
  | Raise e => lift (Raise e)
  | Ok ns =>
      if (0 <=? monotonic w + ns) && (monotonic w + ns <? deadline_limit)
      then emit [Sleep d]
      else lift (Raise (mkExn OSError "[Errno 22] Invalid argument"))
  end.

Definition log_record (current_time p1 p2 p3 p4 : string) : string :=
  ESC ++ "[93,m" ++ current_time ++ ", " ++ p1 ++ ", " ++ p2 ++ ", " ++ p3
  ++ ", " ++ p4 ++ NL.

Definition status_line (start current_time p1 comma p2 p3 p4 end_ : string)
  : string :=
  ESC ++ "[93m" ++ start ++ current_time ++ " " ++ ESC ++ "[97m| "
  ++ ESC ++ "[92mLong: " ++ ESC ++ "[37m" ++ p1 ++ comma ++ " "
  ++ ESC ++ "[37m" ++ p2 ++ " " ++ ESC ++ "[97m| "
  ++ ESC ++ "[92mLat: " ++ ESC ++ "[37m" ++ p3 ++ comma ++ " "
  ++ ESC ++ "[37m" ++ p4 ++ end_.

(** [if parts[1] != "" and parts[3] != "": ...]: both conversions, then the
    record for [debug.log]. *)
Definition convert_block (w : env) (current_time : string) : M unit :=
  (a <- parts_at 1;;
   both <- (if nonempty a then b <- parts_at 3;; ret (nonempty b)
            else ret false);;
   if both : bool then
     t1 <- parts_at 1;;
     v1 <- lift (convert_to_decimal_deg t1 "lat");;
     parts_assign 1 v1;;
     t3 <- parts_at 3;;
     v3 <- lift (convert_to_decimal_deg t3 "long");;
     parts_assign 3 v3;;
     p1 <- parts_at 1;;
     p2 <- parts_at 2;;
     p3 <- parts_at 3;;
     p4 <- parts_at 4;;
     flush_to_file w (log_record current_time p1 p2 p3 p4) "debug.log"
   else ret tt)%stmt.

(** The two [if parts[k] == "": parts[k] = fancy_waiting(...)]. *)
Definition waiting_block : M unit :=
  (a <- parts_at 1;;
   i <- get_it;;
   (if String.eqb a EmptyString
    then parts_assign 1 (fancy_waiting "Waiting for data" i) else ret tt);;
   b <- parts_at 3;;
   i' <- get_it;;
   if String.eqb b EmptyString
   then parts_assign 3 (fancy_waiting "Waiting for data" i') else ret tt)%stmt.

(** The choice of the rewind and clear escapes, and the status line. *)
Definition redraw (current_time : string) : M unit :=
  (err <- get_error;;
   se <- (if err =? 1
          then set_error 0;; ret (ESC ++ "[2F", ESC ++ "[0J")
          else ret (ESC ++ "[1F", ESC ++ "[0K"));;
   c <- parts_at 2;;
   let comma := if nonempty c then ESC ++ "[97m," else EmptyString in
   p1 <- parts_at 1;;
   p2 <- parts_at 2;;
   p3 <- parts_at 3;;
   p4 <- parts_at 4;;
   emit [Print (status_line (fst se) current_time p1 comma p2 p3 p4 (snd se))]
  )%stmt.

(** The statements of [try:] before [time.sleep]. *)
Definition work (w : env) (current_time : string) : M unit :=
  (read_file w;;
   convert_block w current_time;;
   waiting_block;;
   redraw current_time)%stmt.

(** The body of [try:]. *)
Definition try_block (TIME_DELAY : interval) (w : env) (current_time : string)
  : M unit :=
  (work w current_time;; sleep w TIME_DELAY)%stmt.

(** The body of [except Exception as e:]. *)
Definition handler (current_time : string) (e : exn) : M unit :=
  (emit [Print (ESC ++ "[2F" ++ current_time
                ++ " | Bits lost... Looping again..." ++ ESC ++ "[K")];;
   emit [Print ("Error: " ++ exn_message e ++ ESC ++ "[K")];;
   set_error 1)%stmt.

(** After one pass through the body of [while True:] the loop either goes
    round again or the exception leaves the program. *)
Inductive outcome :=
| Running (m : machine)
| Crashed (e : exn) (m : machine).

(** [if it == 2: it = -1] and [it += 1]. *)
Definition tick (m : machine) : machine :=
  mkMachine (parts m) (error m) ((if it m =? 2 then -1 else it m) + 1)
            (trace m).

Definition iteration (TIME_DELAY : interval) (w : env) (m : machine)
  : outcome :=
  let current_time := now w in
  match try_block TIME_DELAY w current_time (tick m) with
  | (Ok _, m1) => Running m1
  | (Raise e, m1) =>
      if is_Exception (exn_kind_of e)
      then Running (snd (handler current_time e m1))
      else Crashed e m1
  end.

(** The loop over the successive states of the outside world. *)
Fixpoint run (TIME_DELAY : interval) (ws : list env) (m : machine) : outcome :=
  match ws with
  | [] => Running m
  | w :: rest =>
      match iteration TIME_DELAY w m with
      | Running m' => run TIME_DELAY rest m'
      | Crashed e m' => Crashed e m'
      end
  end.

(** ** Definitions that follow the specification's words *)

(** The number of periods the waiting indicator appends for a counter. *)
Definition spec_periods (i : Z) : nat :=
  match i with
  | 0 => 1%nat
  | 1 => 2%nat
  | 2 => 3%nat
  | _ => 3%nat
  end.

(** [round(DD + float(MM.mmmm)/60, 3)] as a string, where [DD] is the first
    [width] characters of the field and [MM.mmmm] all the rest. *)
Definition spec_decimal_degrees (width : nat) (term : string)
  : result string :=
  (DD <- Py.float (substring 0 width term);;
   minutes <- Py.float (substring width (String.length term - width) term);;
   Ok (Py.repr_float
         (Py.round (Py.fadd DD (Py.fdiv minutes (Py.of_Z 60))) 3)))%result.

(** Degrees plus minutes over sixty, rounded to three decimals; the minutes
    are given in hundredths. [decimal_degrees] is that value as a string. *)
Definition decimal_value (degrees minute_hundredths : Z) : spec_float :=
  Py.round
    (Py.fadd (Py.of_Z degrees)
             (Py.fdiv (Py.of_decimal false minute_hundredths (-2))
                      (Py.of_Z 60))) 3.

Definition decimal_degrees (degrees minute_hundredths : Z) : string :=
  Py.repr_float (decimal_value degrees minute_hundredths).

(** The sign bit of a float. *)
Definition negative (x : spec_float) : bool :=
  match x with
  | S754_zero s | S754_infinity s | S754_finite s _ _ => s
  | S754_nan => false
  end.

(** The last line of the file that starts with the sentence tag. *)
Fixpoint latest_sentence (lines : list string) : option string :=
  match lines with
  | [] => None
  | line :: rest =>
      match latest_sentence rest with
      | Some s => Some s
      | None => if Py.startswith line "$GPGLL" then Some line else None
      end
  end.

Definition is_append (e : event) : bool :=
  match e with Append _ _ => true | _ => false end.

Definition is_sleep (e : event) : bool :=
  match e with Sleep _ => true | _ => false end.

(** ** Auxiliary definitions for the statements *)

Definition digits : list ascii :=
  ["0"; "1"; "2"; "3"; "4"; "5"; "6"; "7"; "8"; "9"]%char.

Definition str (l : list ascii) : string := string_of_list_ascii l.

Definition float_is (s : string) (x : spec_float) : bool :=
  match Py.float s with
  | Ok y => Py.float_eqb y x
  | Raise _ => false
  end.

(** Nothing to fall back on: the file cannot be opened, or holds no line
    with the sentence tag. *)
Definition no_sentence (w : env) : Prop :=
  match file w with
  | Readable lines => latest_sentence lines = None
  | Unreadable _ => True
  end.

Definition first_error_message (w : env) : string :=
  match file w with
  | Readable _ => "name 'parts' is not defined"
  | Unreadable msg => msg
  end.

Definition error_block (current_time msg : string) : list event :=
  [Print (ESC ++ "[2F" ++ current_time ++ " | Bits lost... Looping again..."
          ++ ESC ++ "[K");
   Print ("Error: " ++ msg ++ ESC ++ "[K")].

(** The value drawn for a field when the other one, or itself, is empty. *)
Definition shown (field : string) (i : Z) : string :=
  if String.eqb field EmptyString then fancy_waiting "Waiting for data" i
  else field.

(** The value drawn for a field in general: the placeholder when it is
    empty, the field as read when the other one is empty, else its
    conversion. *)
Definition rendered (axis field other : string) (i : Z) : result string :=
  if String.eqb field EmptyString
  then Ok (fancy_waiting "Waiting for data" i)
  else if String.eqb other EmptyString then Ok field
  else convert_to_decimal_deg field axis.

(** The cursor-rewind and the clear escape for a value of the error flag. *)
Definition rewind (err : Z) : string * string :=
  if err =? 1 then (ESC ++ "[2F", ESC ++ "[0J")
  else (ESC ++ "[1F", ESC ++ "[0K").

Definition comma_of (hemisphere : string) : string :=
  if nonempty hemisphere then ESC ++ "[97m," else EmptyString.

Ltac index_chars :=
  cbn [Py.str_index String.get rbind Py.str1 String.append].

(** The example sentence of the specification, and the same sentence
    without its latitude. *)
Definition sentence_fix : string :=
  "$GPGLL,4807.038,N,01131.000,E,225444,A" ++ NL.

Definition sentence_no_lat : string :=
  "$GPGLL,,N,01131.000,E,225444,A" ++ NL.

Definition env_fix : env := mkEnv "12:00:00" (Readable [sentence_fix]) None.

Definition env_no_lat : env :=
  mkEnv "12:00:01" (Readable [sentence_no_lat]) None.

Definition env_missing : env :=
  mkEnv "12:00:02"
        (Unreadable "[Errno 2] No such file or directory: 'putty.log'") None.


Definition env_lone_latitude : env :=
  mkEnv "12:00:08" (Readable ["$GPGLL,4807.038,N,"]) None.

(** The machine after the statements before [time.sleep] have run on the
    example sentence. *)
Definition after_fix : machine :=
  snd (work env_fix (now env_fix) (tick initial)).


(** An iteration raises inside [try:], or gets through it. *)
Definition raises (d : interval) (w : env) (m : machine) : Prop :=
  exists e m1, try_block d w (now w) (tick m) = (Raise e, m1).

Definition completes (d : interval) (w : env) (m : machine) : Prop :=
  exists m1, try_block d w (now w) (tick m) = (Ok tt, m1).

(** Symbolic execution of the statements after the file has been read. *)
Ltac run_work :=
  cbv -[fancy_waiting status_line Z.add Z.eqb ESC comma_of log_record
        convert_to_decimal_deg log_failure sleep].

Ltac run_work_in H :=
  cbv -[fancy_waiting status_line Z.add Z.eqb ESC comma_of log_record
        convert_to_decimal_deg log_failure String.eqb app] in H;
  cbn [String.eqb] in H.

Ltac split_case H :=
  match type of H with
  | context [String.eqb ?y EmptyString] => is_var y; destruct y
  | context [match convert_to_decimal_deg ?a ?b with _ => _ end] =>
      destruct (convert_to_decimal_deg a b)
  | context [match log_failure ?a with _ => _ end] =>
      destruct (log_failure a)
  | context [if Z.eqb ?a ?b then _ else _] => destruct (Z.eqb a b) eqn:?
  end.

(** ** Definitions for the further properties *)

(** [line.startswith("$GPGLL")]. *)
Definition tagged (line : string) : bool := Py.startswith line "$GPGLL".

(** What one pass through the body of [while True:] can add to the trace:
    the error block alone; the status line, after the log record if there is
    one, followed by the sleep or, when the sleep raises, by the error
    block. *)
Inductive emitted (d : interval) (t : string) : list event -> Prop :=
| emitted_error (msg : string) :
    emitted d t (error_block t msg)
| emitted_line (line : string) :
    emitted d t [Print line; Sleep d]
| emitted_record (record line : string) :
    emitted d t [Append "debug.log" record; Print line; Sleep d]
| emitted_line_error (line msg : string) :
    emitted d t (Print line :: error_block t msg)
| emitted_record_error (record line msg : string) :
    emitted d t (Append "debug.log" record :: Print line :: error_block t msg).

(** An interval that [time.sleep] accepts in an environment: it converts
    to a count of nanoseconds and the deadline it gives on the monotonic
    clock is one the kernel takes. *)
Definition sleepable (d : interval) (w : env) : Prop :=
  exists ns,
    timeout_ns d = Ok ns
    /\ 0 <= monotonic w + ns < deadline_limit.

(** A sentence without latitude, then a file without any sentence. *)
Definition env_no_sentence : env :=
  mkEnv "12:00:03" (Readable ["$GPRMC,225446,A" ++ NL]) None.


(** The log cannot be opened while the example sentence is read. *)
Definition env_log_locked : env :=
  mkEnv "12:00:04" (Readable [sentence_fix])
        (Some "[Errno 13] Permission denied: 'debug.log'").

(** * Theorems *)

(** ** Decimal digits and [float] *)

Lemma is_digit_In (c : ascii) : Py.is_digit c = true -> In c digits.
Proof.
  destruct c as [b0 b1 b2 b3 b4 b5 b6 b7].
  destruct b0, b1, b2, b3, b4, b5, b6, b7; cbv; intro H;
    try discriminate H; tauto.
Qed.

Lemma forall_digit (P : ascii -> bool) :
  forallb P digits = true -> forall c, Py.is_digit c = true -> P c = true.
Proof.
  intros H c Hc. rewrite forallb_forall in H. apply H, is_digit_In, Hc.
Qed.

Lemma float_eqb_eq (x y : spec_float) : Py.float_eqb x y = true -> x = y.
Proof.
  destruct x as [a|a| |a m e], y as [b|b| |b n f]; simpl;
    try discriminate; try reflexivity.
  - intro H. apply Bool.eqb_prop in H. now subst.
  - intro H. apply Bool.eqb_prop in H. now subst.
  - intro H. apply andb_prop in H. destruct H as [H He].
    apply andb_prop in H. destruct H as [Hs Hm].
    apply Bool.eqb_prop in Hs. apply Pos.eqb_eq in Hm. apply Z.eqb_eq in He.
    now subst.
Qed.

Lemma float_is_sound (s : string) (x : spec_float) :
  float_is s x = true -> Py.float s = Ok x.
Proof.
  unfold float_is. destruct (Py.float s) as [y|e]; [|discriminate].
  intro H. now rewrite (float_eqb_eq _ _ H).
Qed.

(** [float] of two digits is their number. *)
Lemma float_two_digits (a b : ascii) :
  Py.is_digit a = true -> Py.is_digit b = true ->
  Py.float (str [a; b]) = Ok (Py.of_Z (Py.Z_of_digits 0 [a; b])).
Proof.
  intros Ha Hb. apply float_is_sound.
  revert b Hb.
  apply (forall_digit
           (fun b => float_is (str [a; b]) (Py.of_Z (Py.Z_of_digits 0 [a; b])))).
  revert a Ha.
  apply (forall_digit
           (fun a => forallb (fun b => float_is (str [a; b])
                                 (Py.of_Z (Py.Z_of_digits 0 [a; b]))) digits)).
  vm_compute. reflexivity.
Qed.

(** [float] of three digits is their number. *)
Lemma float_three_digits (a b c : ascii) :
  Py.is_digit a = true -> Py.is_digit b = true -> Py.is_digit c = true ->
  Py.float (str [a; b; c]) = Ok (Py.of_Z (Py.Z_of_digits 0 [a; b; c])).
Proof.
  intros Ha Hb Hc. apply float_is_sound.
  revert c Hc.
  apply (forall_digit
           (fun c => float_is (str [a; b; c])
                       (Py.of_Z (Py.Z_of_digits 0 [a; b; c])))).
  revert b Hb.
  apply (forall_digit
           (fun b => forallb (fun c => float_is (str [a; b; c])
                       (Py.of_Z (Py.Z_of_digits 0 [a; b; c]))) digits)).
  revert a Ha.
  apply (forall_digit
           (fun a => forallb (fun b => forallb (fun c =>
                       float_is (str [a; b; c])
                         (Py.of_Z (Py.Z_of_digits 0 [a; b; c])))
                       digits) digits)).
  vm_compute. reflexivity.
Qed.

(** [float] of minutes [ab.cd] is the double nearest to [abcd / 100]. *)
Lemma float_minutes (a b c d : ascii) :
  Py.is_digit a = true -> Py.is_digit b = true ->
  Py.is_digit c = true -> Py.is_digit d = true ->
  Py.float (str [a; b; "."%char; c; d])
  = Ok (Py.of_decimal false (Py.Z_of_digits 0 [a; b; c; d]) (-2)).
Proof.
  intros Ha Hb Hc Hd. apply float_is_sound.
  revert d Hd.
  apply (forall_digit
           (fun d => float_is (str [a; b; "."%char; c; d])
              (Py.of_decimal false (Py.Z_of_digits 0 [a; b; c; d]) (-2)))).
  revert c Hc.
  apply (forall_digit
           (fun c => forallb (fun d => float_is (str [a; b; "."%char; c; d])
              (Py.of_decimal false (Py.Z_of_digits 0 [a; b; c; d]) (-2)))
              digits)).
  revert b Hb.
  apply (forall_digit
           (fun b => forallb (fun c => forallb (fun d =>
              float_is (str [a; b; "."%char; c; d])
                (Py.of_decimal false (Py.Z_of_digits 0 [a; b; c; d]) (-2)))
              digits) digits)).
  revert a Ha.
  apply (forall_digit
           (fun a => forallb (fun b => forallb (fun c => forallb (fun d =>
              float_is (str [a; b; "."%char; c; d])
                (Py.of_decimal false (Py.Z_of_digits 0 [a; b; c; d]) (-2)))
              digits) digits) digits)).
  vm_compute. reflexivity.
Qed.

(** ** The waiting indicator *)

(** C8: for every base message, [fancy_waiting] appends one period for
    counter 0, two for 1, three for 2 and three for any other counter. *)
Theorem fancy_waiting_periods (msg : string) (i : Z) :
  fancy_waiting msg i = msg ++ Py.repeat_char "."%char (spec_periods i).
Proof.
  unfold fancy_waiting.
  destruct i as [|p|p]; [reflexivity| |reflexivity].
  destruct p as [[q|q|]|[q|q|]|]; reflexivity.
Qed.

(** ** The coordinate converter *)

(** On a field whose characters 1-2, 3-4 and 6-7 are digits the latitude
    branch returns the degrees-plus-minutes formula; character 5 and
    whatever follows character 7 are not read. *)
Lemma convert_lat_layout (d0 d1 m0 m1 sep f0 f1 : ascii) (rest : string) :
  Forall (fun c => Py.is_digit c = true) [d0; d1; m0; m1; f0; f1] ->
  convert_to_decimal_deg (str [d0; d1; m0; m1; sep; f0; f1] ++ rest) "lat"
  = Ok (decimal_degrees (Py.Z_of_digits 0 [d0; d1])
                        (Py.Z_of_digits 0 [m0; m1; f0; f1])).
Proof.
  intro H.
  repeat match goal with
         | H : Forall _ (_ :: _) |- _ => inversion_clear H
         end.
  unfold convert_to_decimal_deg.
  change (String.eqb "lat" "lat") with true.
  cbn [str string_of_list_ascii]. index_chars.
  change (String d0 (Py.str1 d1)) with (str [d0; d1]).
  rewrite float_two_digits by assumption. index_chars.
  change (Py.float _) with (Py.float (str [m0; m1; "."%char; f0; f1])).
  rewrite float_minutes by assumption. reflexivity.
Qed.

(** The same for the longitude branch: characters 1-3, 4-5 and 7-8. *)
Lemma convert_long_layout (d0 d1 d2 m0 m1 sep f0 f1 : ascii) (rest : string) :
  Forall (fun c => Py.is_digit c = true) [d0; d1; d2; m0; m1; f0; f1] ->
  convert_to_decimal_deg (str [d0; d1; d2; m0; m1; sep; f0; f1] ++ rest) "long"
  = Ok (decimal_degrees (Py.Z_of_digits 0 [d0; d1; d2])
                        (Py.Z_of_digits 0 [m0; m1; f0; f1])).
Proof.
  intro H.
  repeat match goal with
         | H : Forall _ (_ :: _) |- _ => inversion_clear H
         end.
  unfold convert_to_decimal_deg.
  change (String.eqb "long" "lat") with false.
  change (String.eqb "long" "long") with true.
  cbn [str string_of_list_ascii]. index_chars.
  change (String d0 (String d1 (Py.str1 d2))) with (str [d0; d1; d2]).
  rewrite float_three_digits by assumption. index_chars.
  change (Py.float _) with (Py.float (str [m0; m1; "."%char; f0; f1])).
  rewrite float_minutes by assumption. reflexivity.
Qed.

(** *** No sign is ever produced *)

Lemma binary_round_aux_sign (s : bool) (m e : Z) (l : location) :
  negative (binary_round_aux Py.prec Py.emax s m e l) = s
  \/ binary_round_aux Py.prec Py.emax s m e l = S754_nan.
Proof.
  unfold binary_round_aux.
  destruct (shr_fexp Py.prec Py.emax m e l) as [mrs e'].
  destruct (shr_fexp Py.prec Py.emax _ e' loc_Exact) as [mrs' e''].
  destruct (shr_m mrs') as [|p|p]; [now left| |now right].
  destruct (e'' <=? Py.emax - Py.prec); now left.
Qed.

Lemma binary_round_positive (p : positive) (e : Z) :
  negative (binary_round Py.prec Py.emax false p e) = false.
Proof.
  unfold binary_round.
  destruct (shl_align p e _) as [mz ez].
  destruct (binary_round_aux_sign false (Zpos mz) ez loc_Exact) as [H|H];
    rewrite H; reflexivity.
Qed.

Lemma of_Z_not_negative (n : Z) : 0 <= n -> negative (Py.of_Z n) = false.
Proof.
  intro H. unfold Py.of_Z, binary_normalize.
  destruct n as [|p|p]; [reflexivity|apply binary_round_positive|lia].
Qed.

Lemma fdiv_not_negative (x y : spec_float) :
  negative x = false -> negative y = false ->
  negative (Py.fdiv x y) = false.
Proof.
  unfold Py.fdiv, SFdiv.
  destruct x as [a|a| |a m e], y as [b|b| |b n f]; simpl; intros Hx Hy;
    subst; try reflexivity.
  destruct (SFdiv_core_binary _ _ _ _ _ _) as [[mz ez] lz].
  destruct (binary_round_aux_sign false mz ez lz) as [H|H];
    cbn [xorb]; rewrite H; reflexivity.
Qed.

Lemma fadd_not_negative (x y : spec_float) :
  negative x = false -> negative y = false ->
  negative (Py.fadd x y) = false.
Proof.
  unfold Py.fadd, SFadd.
  destruct x as [a|a| |a m e], y as [b|b| |b n f]; simpl; intros Hx Hy;
    subst; try reflexivity.
  destruct (shl_align m e _) as [m1 e1], (shl_align n f _) as [m2 e2].
  cbn [fst cond_Zopp Z.add binary_normalize].
  apply binary_round_positive.
Qed.

Lemma of_decimal_not_negative (m e : Z) :
  negative (Py.of_decimal false m e) = false.
Proof.
  unfold Py.of_decimal.
  destruct m as [|p|p]; try reflexivity.
  destruct (0 <=? e).
  - cbn [cond_Zopp]. apply (of_Z_not_negative (Z.pos p * 10 ^ e)).
    apply Z.mul_nonneg_nonneg; [lia|]. apply Z.pow_nonneg. lia.
  - apply (fdiv_not_negative (S754_finite false p 0)
                             (S754_finite false _ 0)); reflexivity.
Qed.

Lemma round_not_negative (x : spec_float) (n : Z) :
  negative x = false -> negative (Py.round x n) = false.
Proof.
  destruct x as [a|a| |a m e]; simpl; intro H; subst; try reflexivity.
  destruct (323 <? n); [reflexivity|apply of_decimal_not_negative].
Qed.

Lemma decimal_value_not_negative (d mh : Z) :
  0 <= d -> negative (decimal_value d mh) = false.
Proof.
  intro H. unfold decimal_value.
  apply round_not_negative, fadd_not_negative.
  - now apply of_Z_not_negative.
  - apply fdiv_not_negative.
    + apply of_decimal_not_negative.
    + now apply of_Z_not_negative.
Qed.

Lemma Z_of_digits_nonneg (l : list ascii) (acc : Z) :
  Forall (fun c => Py.is_digit c = true) l -> 0 <= acc ->
  0 <= Py.Z_of_digits acc l.
Proof.
  intro H. revert acc. induction H as [|c l Hc _ IH]; intros acc Hacc.
  - exact Hacc.
  - cbn [Py.Z_of_digits]. apply IH.
    unfold Py.is_digit in Hc. apply andb_prop in Hc. destruct Hc as [Hc _].
    unfold Py.digit_val. apply Z.leb_le in Hc. lia.
Qed.

(** C2: on every field with the fixed-width layout the converter reads, for
    latitude, characters 1-2 as degrees, 3-4 as minutes and 6-7 as the
    fraction of the minutes (character 5 is skipped), for longitude
    characters 1-3, 4-5 and 7-8, and returns degrees + minutes/60 rounded to
    three decimals as a string; the value carries no sign. *)
Theorem convert_fixed_width_layout
  (d0 d1 d2 m0 m1 sep f0 f1 : ascii) (rest : string) :
  Forall (fun c => Py.is_digit c = true) [d0; d1; d2; m0; m1; f0; f1] ->
  convert_to_decimal_deg (str [d0; d1; m0; m1; sep; f0; f1] ++ rest) "lat"
  = Ok (decimal_degrees (Py.Z_of_digits 0 [d0; d1])
                        (Py.Z_of_digits 0 [m0; m1; f0; f1]))
  /\ convert_to_decimal_deg
       (str [d0; d1; d2; m0; m1; sep; f0; f1] ++ rest) "long"
     = Ok (decimal_degrees (Py.Z_of_digits 0 [d0; d1; d2])
                           (Py.Z_of_digits 0 [m0; m1; f0; f1]))
  /\ negative (decimal_value (Py.Z_of_digits 0 [d0; d1])
                             (Py.Z_of_digits 0 [m0; m1; f0; f1])) = false
  /\ negative (decimal_value (Py.Z_of_digits 0 [d0; d1; d2])
                             (Py.Z_of_digits 0 [m0; m1; f0; f1])) = false.
Proof.
  intro H.
  assert (Hd : forall c, In c [d0; d1; d2; m0; m1; f0; f1] ->
                         Py.is_digit c = true)
    by (apply Forall_forall; exact H).
  assert (Hall : forall l, incl l [d0; d1; d2; m0; m1; f0; f1] ->
                           Forall (fun c => Py.is_digit c = true) l)
    by (intros l Hl; apply Forall_forall; intros c Hc; apply Hd, Hl, Hc).
  repeat split.
  - apply convert_lat_layout, Hall. intros c Hc. simpl in *. tauto.
  - apply convert_long_layout, Hall. intros c Hc. simpl in *. tauto.
  - apply decimal_value_not_negative, Z_of_digits_nonneg; [|lia].
    apply Hall. intros c Hc. simpl in *. tauto.
  - apply decimal_value_not_negative, Z_of_digits_nonneg; [|lia].
    apply Hall. intros c Hc. simpl in *. tauto.
Qed.

Lemma convert_fixed_width_layout_witness :
  Forall (fun c => Py.is_digit c = true)
         ["0"; "1"; "1"; "3"; "1"; "0"; "0"]%char
  /\ convert_to_decimal_deg "0131.000" "lat" = Ok "1.517"
  /\ convert_to_decimal_deg "01131.000" "long" = Ok "11.517".
Proof.
  assert (H : Forall (fun c => Py.is_digit c = true)
                     ["0"; "1"; "1"; "3"; "1"; "0"; "0"]%char)
    by (repeat constructor).
  split; [exact H|].
  destruct (convert_fixed_width_layout "0" "1" "1" "3" "1" "." "0" "0" "0" H)
    as [Hlat [Hlong _]].
  split; [exact Hlat|exact Hlong].
Defined.

(** *** The fraction of the minutes *)

Lemma spec_lat_two_fraction_digits (d0 d1 m0 m1 f0 f1 : ascii) :
  Forall (fun c => Py.is_digit c = true) [d0; d1; m0; m1; f0; f1] ->
  spec_decimal_degrees 2 (str [d0; d1; m0; m1; "."%char; f0; f1])
  = Ok (decimal_degrees (Py.Z_of_digits 0 [d0; d1])
                        (Py.Z_of_digits 0 [m0; m1; f0; f1])).
Proof.
  intro H.
  repeat match goal with
         | H : Forall _ (_ :: _) |- _ => inversion_clear H
         end.
  unfold spec_decimal_degrees.
  change (substring 0 2 _) with (str [d0; d1]).
  change (substring 2 _ _) with (str [m0; m1; "."%char; f0; f1]).
  rewrite float_two_digits, float_minutes by assumption. reflexivity.
Qed.

Lemma spec_long_two_fraction_digits (d0 d1 d2 m0 m1 f0 f1 : ascii) :
  Forall (fun c => Py.is_digit c = true) [d0; d1; d2; m0; m1; f0; f1] ->
  spec_decimal_degrees 3 (str [d0; d1; d2; m0; m1; "."%char; f0; f1])
  = Ok (decimal_degrees (Py.Z_of_digits 0 [d0; d1; d2])
                        (Py.Z_of_digits 0 [m0; m1; f0; f1])).
Proof.
  intro H.
  repeat match goal with
         | H : Forall _ (_ :: _) |- _ => inversion_clear H
         end.
  unfold spec_decimal_degrees.
  change (substring 0 3 _) with (str [d0; d1; d2]).
  change (substring 3 _ _) with (str [m0; m1; "."%char; f0; f1]).
  rewrite float_three_digits, float_minutes by assumption. reflexivity.
Qed.

(** C1, as the code has it: for every valid latitude [DDMM.mmmm] and
    longitude [DDDMM.mmmm] the converter returns the string form of
    [round(DD + float(MM.mm)/60, 3)], the formula of the specification
    applied to the field cut after the second digit of the fraction: the
    third and fourth digits of the fraction do not contribute. *)
Theorem convert_reads_two_fraction_digits
  (d0 d1 d2 m0 m1 f0 f1 f2 f3 : ascii) :
  Forall (fun c => Py.is_digit c = true)
         [d0; d1; d2; m0; m1; f0; f1; f2; f3] ->
  (exists s,
      convert_to_decimal_deg
        (str [d0; d1; m0; m1; "."%char; f0; f1; f2; f3]) "lat" = Ok s
      /\ spec_decimal_degrees 2 (str [d0; d1; m0; m1; "."%char; f0; f1])
         = Ok s)
  /\ (exists s,
         convert_to_decimal_deg
           (str [d0; d1; d2; m0; m1; "."%char; f0; f1; f2; f3]) "long" = Ok s
         /\ spec_decimal_degrees 3
              (str [d0; d1; d2; m0; m1; "."%char; f0; f1]) = Ok s).
Proof.
  intro H.
  assert (Hd : forall c, In c [d0; d1; d2; m0; m1; f0; f1; f2; f3] ->
                         Py.is_digit c = true)
    by (apply Forall_forall; exact H).
  assert (Hall : forall l, incl l [d0; d1; d2; m0; m1; f0; f1; f2; f3] ->
                           Forall (fun c => Py.is_digit c = true) l)
    by (intros l Hl; apply Forall_forall; intros c Hc; apply Hd, Hl, Hc).
  split.
  - exists (decimal_degrees (Py.Z_of_digits 0 [d0; d1])
                            (Py.Z_of_digits 0 [m0; m1; f0; f1])).
    split.
    + apply (convert_lat_layout d0 d1 m0 m1 "." f0 f1 (str [f2; f3])).
      apply Hall. intros c Hc. simpl in *. tauto.
    + apply spec_lat_two_fraction_digits, Hall.
      intros c Hc. simpl in *. tauto.
  - exists (decimal_degrees (Py.Z_of_digits 0 [d0; d1; d2])
                            (Py.Z_of_digits 0 [m0; m1; f0; f1])).
    split.
    + apply (convert_long_layout d0 d1 d2 m0 m1 "." f0 f1 (str [f2; f3])).
      apply Hall. intros c Hc. simpl in *. tauto.
    + apply spec_long_two_fraction_digits, Hall.
      intros c Hc. simpl in *. tauto.
Qed.

Lemma convert_reads_two_fraction_digits_witness :
  Forall (fun c => Py.is_digit c = true)
         ["1"; "2"; "1"; "0"; "0"; "0"; "9"; "3"; "8"]%char
  /\ (exists s, convert_to_decimal_deg "1200.0938" "lat" = Ok s
                /\ spec_decimal_degrees 2 "1200.09" = Ok s)
  /\ (exists s, convert_to_decimal_deg "12100.0938" "long" = Ok s
                /\ spec_decimal_degrees 3 "12100.09" = Ok s).
Proof.
  assert (H : Forall (fun c => Py.is_digit c = true)
                     ["1"; "2"; "1"; "0"; "0"; "0"; "9"; "3"; "8"]%char)
    by (repeat constructor).
  split; [exact H|].
  exact (convert_reads_two_fraction_digits "1" "2" "1" "0" "0" "0" "9" "3" "8" H).
Defined.

(** C1 as stated fails: with the whole fraction [MM.mmmm] the formula gives
    another third decimal than the converter does. *)
Lemma full_fraction_counterexample :
  convert_to_decimal_deg "1400.1538" "lat" = Ok "14.002"
  /\ spec_decimal_degrees 2 "1400.1538" = Ok "14.003"
  /\ convert_to_decimal_deg "1400.1538" "lat"
     <> spec_decimal_degrees 2 "1400.1538"
  /\ convert_to_decimal_deg "12100.0938" "long" = Ok "121.001"
  /\ spec_decimal_degrees 3 "12100.0938" = Ok "121.002"
  /\ convert_to_decimal_deg "12100.0938" "long"
     <> spec_decimal_degrees 3 "12100.0938".
Proof.
  assert (A : convert_to_decimal_deg "1400.1538" "lat" = Ok "14.002")
    by (vm_compute; reflexivity).
  assert (B : spec_decimal_degrees 2 "1400.1538" = Ok "14.003")
    by (vm_compute; reflexivity).
  assert (C : convert_to_decimal_deg "12100.0938" "long" = Ok "121.001")
    by (vm_compute; reflexivity).
  assert (D : spec_decimal_degrees 3 "12100.0938" = Ok "121.002")
    by (vm_compute; reflexivity).
  repeat split; try assumption.
  - rewrite A, B. discriminate.
  - rewrite C, D. discriminate.
Qed.

(** The example of the specification: [$GPGLL,4807.038,N,01131.000,E,...]. *)
Example convert_spec_example :
  convert_to_decimal_deg "4807.038" "lat" = Ok "48.117"
  /\ convert_to_decimal_deg "01131.000" "long" = Ok "11.517".
Proof. split; vm_compute; reflexivity. Qed.

(** ** The command line *)

Lemma lstrip_keeps_point (l : list ascii) :
  In "."%char l -> In "."%char (Py.lstrip l).
Proof.
  induction l as [|c t IH]; intro H; [exact H|].
  cbn [Py.lstrip]. destruct (Py.is_space c) eqn:Hc; [|exact H].
  destruct H as [H|H]; [|exact (IH H)].
  subst c. discriminate Hc.
Qed.

Lemma take_sign_keeps_point (l : list ascii) :
  In "."%char l -> In "."%char (snd (Py.take_sign l)).
Proof.
  destruct l as [|c t]; intro H; [exact H|].
  assert (Hs : snd (Py.take_sign (c :: t)) = c :: t
               \/ (snd (Py.take_sign (c :: t)) = t
                   /\ (c = "-"%char \/ c = "+"%char))).
  { destruct c as [b0 b1 b2 b3 b4 b5 b6 b7].
    destruct b0, b1, b2, b3, b4, b5, b6, b7; cbn; auto. }
  destruct Hs as [Hs|[Hs Hc]]; rewrite Hs; [exact H|].
  destruct H as [H|H]; [|exact H].
  subst c. destruct Hc as [Hc|Hc]; discriminate Hc.
Qed.

Lemma int_digits_keeps_point (l : list ascii) :
  forall prev ds rest,
    Py.int_digits prev l = Some (ds, rest) ->
    In "."%char l -> In "."%char rest.
Proof.
  induction l as [|c t IH]; intros prev ds rest Hd Hin; [destruct Hin|].
  cbn [Py.int_digits] in Hd.
  destruct (Ascii.eqb c "_") eqn:Hu.
  - apply Ascii.eqb_eq in Hu. subst c.
    destruct (Ascii.eqb prev "_"); [discriminate Hd|].
    destruct Hin as [Hin|Hin]; [discriminate Hin|].
    exact (IH _ _ _ Hd Hin).
  - destruct (Py.is_digit c) eqn:Hc.
    + destruct (Py.int_digits c t) as [[ds' r']|] eqn:Ht; [|discriminate Hd].
      inversion Hd; subst.
      destruct Hin as [Hin|Hin]; [subst c; discriminate Hc|].
      exact (IH _ _ _ Ht Hin).
    + destruct (Ascii.eqb prev "_"); [discriminate Hd|].
      inversion Hd; subst. exact Hin.
Qed.

Lemma int_rejects_point (s : string) :
  In "."%char (Py.chars s) -> Py.int s = None.
Proof.
  intro H. unfold Py.int.
  apply lstrip_keeps_point, take_sign_keeps_point in H.
  destruct (Py.take_sign (Py.lstrip (Py.chars s))) as [neg r].
  cbn [snd] in H.
  assert (Hr : match Py.int_digits "000" r with
               | Some (c :: ds, rest) =>
                   match Py.lstrip rest with
                   | [] =>
                       if (4300 <? List.length (c :: ds))%nat then None
                       else Some (cond_Zopp neg (Py.Z_of_digits 0 (c :: ds)))
                   | _ :: _ => None
                   end
               | _ => None
               end = None).
  { destruct (Py.int_digits "000" r) as [[ds rest]|] eqn:Hd; [|reflexivity].
    destruct ds as [|c ds]; [reflexivity|].
    apply (int_digits_keeps_point _ _ _ _ Hd), lstrip_keeps_point in H.
    destruct (Py.lstrip rest); [destruct H|reflexivity]. }
  destruct r as [|c t]; [exact Hr|].
  destruct c as [b0 b1 b2 b3 b4 b5 b6 b7].
  destruct b0, b1, b2, b3, b4, b5, b6, b7; first [exact Hr|reflexivity].
Qed.

(** C4, as the code has it: a value of [--time] with a decimal point, such
    as [2.99], is refused by the parser: argparse reports an invalid int
    value and exits with status 2, and no interval results. *)
Theorem time_with_point_is_rejected (out : option string) (s : string) :
  In "."%char (Py.chars s) ->
  parse_args out (Some s)
  = UsageError 2 ("argument -t/--time: invalid int value: " ++ Py.repr_str s).
Proof.
  intro H. unfold parse_args. rewrite (int_rejects_point s H). reflexivity.
Qed.

Lemma time_with_point_is_rejected_witness :
  In "."%char (Py.chars "2.99")
  /\ parse_args None (Some "2.99")
     = UsageError 2 "argument -t/--time: invalid int value: '2.99'".
Proof.
  assert (H : In "."%char (Py.chars "2.99")) by (right; left; reflexivity).
  split; [exact H|].
  exact (time_with_point_is_rejected None "2.99" H).
Defined.

(** C4 as stated fails: [--time 2.99] is not accepted, so no interval, and
    in particular not the integer 2, results. *)
Lemma time_2_99_counterexample :
  ~ (exists a, parse_args None (Some "2.99") = Parsed a)
  /\ parse_args None (Some "2.99")
     <> Parsed (mkArgs (IntSeconds 2) "putty.log").
Proof.
  split.
  - intros [a Ha]. vm_compute in Ha. discriminate Ha.
  - intro Ha. vm_compute in Ha. discriminate Ha.
Qed.

(** What the parser does accept: an integer numeral, and the default. *)
Example time_accepted_values :
  parse_args None (Some "2") = Parsed (mkArgs (IntSeconds 2) "putty.log")
  /\ parse_args (Some "gps.txt") None
     = Parsed (mkArgs (FloatSeconds (Py.of_decimal false 101 (-2))) "gps.txt")
  /\ Py.repr_float (Py.of_decimal false 101 (-2)) = "1.01".
Proof. repeat split; vm_compute; reflexivity. Qed.

(** ** The poll loop *)

(** *** Reading the file *)

Lemma scan_parts (lines : list string) (m : machine) :
  scan lines m
  = (Ok tt,
     mkMachine (match latest_sentence lines with
                | Some s => Some (Py.split ","%char s)
                | None => parts m
                end) (error m) (it m) (trace m)).
Proof.
  revert m. induction lines as [|line rest IH]; intro m.
  - destruct m; reflexivity.
  - cbn [scan latest_sentence]. unfold bind.
    destruct (Py.startswith line "$GPGLL").
    + cbn [set_parts]. rewrite IH. cbn [parts error it trace].
      destruct (latest_sentence rest); reflexivity.
    + cbn [ret]. rewrite IH.
      destruct (latest_sentence rest); reflexivity.
Qed.

(** *** Every exception of the program is caught *)

Lemma every_kind_is_caught (k : exn_kind) : is_Exception k = true.
Proof. destruct k; reflexivity. Qed.

Lemma iteration_runs (d : interval) (w : env) (m : machine) :
  exists m', iteration d w m = Running m'.
Proof.
  unfold iteration.
  destruct (try_block d w (now w) (tick m)) as [[u|e] m1].
  - now exists m1.
  - rewrite every_kind_is_caught. now eexists.
Qed.

Lemma run_runs (d : interval) (ws : list env) :
  forall m, exists m', run d ws m = Running m'.
Proof.
  induction ws as [|w rest IH]; intro m.
  - now exists m.
  - cbn [run]. destruct (iteration_runs d w m) as [m1 H1]. rewrite H1.
    apply IH.
Qed.

(** C3, as the code has it: an error before the first successful iteration,
    when no parsed split exists yet, is caught by the handler like any
    other; the error block is printed, the flag is set and the loop goes on.
    No exception raised inside [try:] ever stops the loop. *)
Theorem first_error_is_handled
  (d : interval) (w : env) (ws : list env) :
  no_sentence w ->
  iteration d w initial
  = Running (mkMachine None 1 0 (error_block (now w) (first_error_message w)))
  /\ (exists m, run d (w :: ws) initial = Running m)
  /\ (forall envs m, exists m', run d envs m = Running m').
Proof.
  intro H. split; [|split].
  - unfold no_sentence in H. unfold first_error_message.
    unfold iteration, try_block, work, read_file, bind.
    destruct (file w) as [lines|msg].
    + rewrite scan_parts, H. reflexivity.
    + reflexivity.
  - apply run_runs.
  - intros envs m. apply run_runs.
Qed.

Lemma first_error_is_handled_witness :
  no_sentence (mkEnv "12:00:03" (Readable ["junk"]) None)
  /\ iteration (IntSeconds 1) (mkEnv "12:00:03" (Readable ["junk"]) None)
               initial
     = Running (mkMachine None 1 0
                  (error_block "12:00:03" "name 'parts' is not defined")).
Proof.
  assert (H : no_sentence (mkEnv "12:00:03" (Readable ["junk"]) None))
    by reflexivity.
  split; [exact H|].
  exact (proj1 (first_error_is_handled
                  (IntSeconds 1) (mkEnv "12:00:03" (Readable ["junk"]) None)
                  [] H)).
Defined.

(** C3 as stated fails: on an empty file, and on a missing one, the first
    iteration raises and the loop is still running afterwards. *)
Lemma first_error_counterexample :
  (forall e m,
      iteration (IntSeconds 1) (mkEnv "12:00:03" (Readable []) None) initial
      <> Crashed e m)
  /\ iteration (IntSeconds 1) (mkEnv "12:00:03" (Readable []) None) initial
     = Running (mkMachine None 1 0
                  (error_block "12:00:03" "name 'parts' is not defined"))
  /\ iteration (IntSeconds 1)
               (mkEnv "12:00:03"
                      (Unreadable
                         "[Errno 2] No such file or directory: 'putty.log'")
                      None) initial
     = Running (mkMachine None 1 0
                  (error_block "12:00:03"
                     "[Errno 2] No such file or directory: 'putty.log'")).
Proof.
  split; [|split].
  - intros e m H. vm_compute in H. discriminate H.
  - vm_compute. reflexivity.
  - vm_compute. reflexivity.
Qed.

(** *** What one pass through the body does *)

Lemma handler_result (t : string) (e : exn) (m : machine) :
  snd (handler t e m)
  = mkMachine (parts m) 1 (it m) (trace m ++ error_block t (exn_message e)).
Proof.
  unfold handler, bind, emit, set_error, error_block.
  cbn [snd parts error it trace]. now rewrite <- app_assoc.
Qed.

Lemma sleep_result (w : env) (d : interval) (m : machine) :
  sleep w d m = (Ok tt, mkMachine (parts m) (error m) (it m)
                                (trace m ++ [Sleep d]))
  \/ exists e, sleep w d m = (Raise e, m).
Proof.
  unfold sleep. destruct (timeout_ns d) as [ns|e]; [|right; now eexists].
  destruct ((0 <=? monotonic w + ns) && (monotonic w + ns <? deadline_limit));
    [now left|right; now eexists].
Qed.

(** Once the statements before [time.sleep] are through, the iteration ends
    with the sleep or, when the sleep raises, with the error block. *)
Lemma iteration_after_work (d : interval) (w : env) (m m1 : machine) :
  work w (now w) (tick m) = (Ok tt, m1) ->
  exists m' rest,
    iteration d w m = Running m'
    /\ parts m' = parts m1
    /\ trace m' = (trace m1 ++ rest)%list
    /\ existsb is_append rest = false
    /\ (rest = [Sleep d] /\ error m' = error m1
        \/ exists e, rest = error_block (now w) (exn_message e)
                     /\ error m' = 1).
Proof.
  intro H. unfold iteration, try_block, bind. rewrite H.
  destruct (sleep_result w d m1) as [Hs|[e Hs]]; rewrite Hs.
  - eexists. exists [Sleep d]. repeat split. left. now split.
  - rewrite every_kind_is_caught, handler_result.
    eexists. exists (error_block (now w) (exn_message e)).
    repeat split. right. exists e. now split.
Qed.

Lemma work_with_empty_field
  (w : env) (m : machine) (lines : list string) (s : string)
  (f0 f1 f2 f3 f4 : string) (tl : list string) :
  file w = Readable lines ->
  latest_sentence lines = Some s ->
  Py.split ","%char s = f0 :: f1 :: f2 :: f3 :: f4 :: tl ->
  f1 = EmptyString \/ f3 = EmptyString ->
  work w (now w) (tick m)
  = (Ok tt,
     mkMachine
       (Some (f0 :: shown f1 (it (tick m)) :: f2 :: shown f3 (it (tick m))
                 :: f4 :: tl))
       (if error m =? 1 then 0 else error m)
       (it (tick m))
       (trace m ++
        [Print (status_line (fst (rewind (error m))) (now w)
                  (shown f1 (it (tick m))) (comma_of f2) f2
                  (shown f3 (it (tick m))) f4 (snd (rewind (error m))))])).
Proof.
  intros Hf Hs Hp He.
  unfold work, read_file. rewrite Hf. unfold bind at 1.
  rewrite scan_parts, Hs, Hp.
  destruct m as [ps err i tr]. cbn [tick parts error it trace].
  unfold rewind, shown.
  destruct He as [->| ->].
  - destruct f3 as [|c f3'];
      cbv -[fancy_waiting status_line Z.add Z.eqb ESC comma_of];
      destruct (err =? 1);
      cbv -[fancy_waiting status_line Z.add Z.eqb ESC comma_of];
      reflexivity.
  - destruct f1 as [|c f1'];
      cbv -[fancy_waiting status_line Z.add Z.eqb ESC comma_of];
      destruct (err =? 1);
      cbv -[fancy_waiting status_line Z.add Z.eqb ESC comma_of];
      reflexivity.
Qed.

Lemma shown_empty (i : Z) :
  shown EmptyString i = fancy_waiting "Waiting for data" i.
Proof. reflexivity. Qed.

Lemma shown_nonempty (f : string) (i : Z) : f <> EmptyString -> shown f i = f.
Proof. destruct f; [congruence|reflexivity]. Qed.

(** The status line of the source, written out. *)
Lemma status_line_written_out (err : Z) (t p1 p2 p3 p4 : string) :
  status_line (fst (rewind err)) t p1 (comma_of p2) p2 p3 p4
              (snd (rewind err))
  = ESC ++ "[93m" ++ (if err =? 1 then ESC ++ "[2F" else ESC ++ "[1F")
    ++ t ++ " " ++ ESC ++ "[97m| " ++ ESC ++ "[92mLong: " ++ ESC ++ "[37m"
    ++ p1
    ++ (if String.eqb p2 EmptyString then EmptyString else ESC ++ "[97m,")
    ++ " " ++ ESC ++ "[37m" ++ p2 ++ " " ++ ESC ++ "[97m| "
    ++ ESC ++ "[92mLat: " ++ ESC ++ "[37m" ++ p3
    ++ (if String.eqb p2 EmptyString then EmptyString else ESC ++ "[97m,")
    ++ " " ++ ESC ++ "[37m" ++ p4
    ++ (if err =? 1 then ESC ++ "[0J" else ESC ++ "[0K").
Proof.
  unfold status_line, rewind, comma_of, nonempty.
  destruct (err =? 1); destruct p2; reflexivity.
Qed.

(** The iteration on a sentence of five fields or more with an empty
    coordinate field. *)
Lemma iteration_with_empty_field
  (d : interval) (w : env) (m : machine) (lines : list string) (s : string)
  (f0 f1 f2 f3 f4 : string) (tl : list string) :
  file w = Readable lines ->
  latest_sentence lines = Some s ->
  Py.split ","%char s = f0 :: f1 :: f2 :: f3 :: f4 :: tl ->
  f1 = EmptyString \/ f3 = EmptyString ->
  exists m' r1 r3 rest,
    r1 = (if String.eqb f1 EmptyString
          then fancy_waiting "Waiting for data" (it (tick m)) else f1)
    /\ r3 = (if String.eqb f3 EmptyString
             then fancy_waiting "Waiting for data" (it (tick m)) else f3)
    /\ iteration d w m = Running m'
    /\ parts m' = Some (f0 :: r1 :: f2 :: r3 :: f4 :: tl)
    /\ trace m'
       = (trace m
          ++ Print
               (ESC ++ "[93m"
                ++ (if error m =? 1 then ESC ++ "[2F" else ESC ++ "[1F")
                ++ now w ++ " " ++ ESC ++ "[97m| "
                ++ ESC ++ "[92mLong: " ++ ESC ++ "[37m" ++ r1
                ++ (if String.eqb f2 EmptyString then EmptyString
                    else ESC ++ "[97m,")
                ++ " " ++ ESC ++ "[37m" ++ f2 ++ " " ++ ESC ++ "[97m| "
                ++ ESC ++ "[92mLat: " ++ ESC ++ "[37m" ++ r3
                ++ (if String.eqb f2 EmptyString then EmptyString
                    else ESC ++ "[97m,")
                ++ " " ++ ESC ++ "[37m" ++ f4
                ++ (if error m =? 1 then ESC ++ "[0J" else ESC ++ "[0K"))
             :: rest)%list
    /\ (rest = [Sleep d] \/ exists msg, rest = error_block (now w) msg).
Proof.
  intros Hf Hs Hp He.
  pose proof (work_with_empty_field w m lines s f0 f1 f2 f3 f4 tl Hf Hs Hp He)
    as Hw.
  destruct (iteration_after_work d w m _ Hw)
    as (m' & rest & Hi & Hparts & Ht & _ & Hrest).
  exists m', (shown f1 (it (tick m))), (shown f3 (it (tick m))), rest.
  split; [reflexivity|]. split; [reflexivity|]. split; [exact Hi|].
  split; [exact Hparts|]. split.
  - rewrite Ht. cbn [trace]. rewrite status_line_written_out.
    now rewrite <- app_assoc.
  - destruct Hrest as [[-> _]|(e & -> & _)]; [now left|right; now eexists].
Qed.


(** C10, as the code has it: when the latest sentence has five fields or
    more and exactly one of the two coordinate fields is empty, the other
    one is drawn, and kept in the list, as it was read, in degrees and
    minutes, unconverted, beside the waiting indicator of the empty one. *)
Theorem lone_field_is_drawn_unconverted
  (d : interval) (w : env) (m : machine) (lines : list string) (s : string)
  (f0 f1 f2 f3 f4 : string) (tl : list string) :
  file w = Readable lines ->
  latest_sentence lines = Some s ->
  Py.split ","%char s = f0 :: f1 :: f2 :: f3 :: f4 :: tl ->
  (f1 = EmptyString /\ f3 <> EmptyString)
  \/ (f1 <> EmptyString /\ f3 = EmptyString) ->
  exists m' r1 r3 rest,
    ((f1 = EmptyString
      /\ r1 = fancy_waiting "Waiting for data" (it (tick m)) /\ r3 = f3)
     \/ (f3 = EmptyString
         /\ r1 = f1 /\ r3 = fancy_waiting "Waiting for data" (it (tick m))))
    /\ iteration d w m = Running m'
    /\ parts m' = Some (f0 :: r1 :: f2 :: r3 :: f4 :: tl)
    /\ trace m'
       = (trace m
          ++ Print
               (ESC ++ "[93m"
                ++ (if error m =? 1 then ESC ++ "[2F" else ESC ++ "[1F")
                ++ now w ++ " " ++ ESC ++ "[97m| "
                ++ ESC ++ "[92mLong: " ++ ESC ++ "[37m" ++ r1
                ++ (if String.eqb f2 EmptyString then EmptyString
                    else ESC ++ "[97m,")
                ++ " " ++ ESC ++ "[37m" ++ f2 ++ " " ++ ESC ++ "[97m| "
                ++ ESC ++ "[92mLat: " ++ ESC ++ "[37m" ++ r3
                ++ (if String.eqb f2 EmptyString then EmptyString
                    else ESC ++ "[97m,")
                ++ " " ++ ESC ++ "[37m" ++ f4
                ++ (if error m =? 1 then ESC ++ "[0J" else ESC ++ "[0K"))
             :: rest)%list
    /\ existsb is_append rest = false.
Proof.
  intros Hf Hs Hp He.
  assert (He' : f1 = EmptyString \/ f3 = EmptyString) by tauto.
  destruct (iteration_with_empty_field
              d w m lines s f0 f1 f2 f3 f4 tl Hf Hs Hp He')
    as (m' & r1 & r3 & rest & H1 & H3 & Hi & Hparts & Ht & Hrest).
  exists m', r1, r3, rest. split; [|repeat split; try assumption].
  - destruct He as [[E1 N3]|[N1 E3]].
    + left. subst f1. split; [reflexivity|]. split; [exact H1|].
      destruct f3; [congruence|exact H3].
    + right. subst f3. split; [reflexivity|]. split; [|exact H3].
      destruct f1; [congruence|exact H1].
  - destruct Hrest as [->|[msg ->]]; reflexivity.
Qed.

(** *** A converted value is never the empty string *)

Lemma append_nonempty (a b : string) :
  b <> EmptyString -> a ++ b <> EmptyString.
Proof. destruct a; [trivial|discriminate]. Qed.

Lemma layout_nonempty (ds : string) (decpt : Z) :
  Py.layout ds decpt <> EmptyString.
Proof.
  unfold Py.layout.
  destruct ((decpt <? -3) || (16 <? decpt)).
  - apply append_nonempty. discriminate.
  - destruct (decpt <=? 0); [discriminate|].
    destruct (Z.of_nat (String.length ds) <=? decpt).
    + apply append_nonempty, append_nonempty. discriminate.
    + apply append_nonempty. discriminate.
Qed.

Lemma repr_float_nonempty (x : spec_float) : Py.repr_float x <> EmptyString.
Proof.
  destruct x as [s|s| |s m e]; cbn [Py.repr_float];
    try (destruct s; discriminate); try discriminate.
  destruct (Py.shortest m e _) as [ds decpt].
  apply append_nonempty, layout_nonempty.
Qed.

Lemma convert_nonempty (term axis v : string) :
  convert_to_decimal_deg term axis = Ok v -> v <> EmptyString.
Proof.
  unfold convert_to_decimal_deg. intro H.
  match type of H with
  | rbind ?c _ = _ => destruct c as [[[[DD a] b]|]|e]
  end; cbn [rbind] in H; try discriminate H.
  destruct (Py.float (a ++ "." ++ b)) as [deci|e]; cbn [rbind] in H;
    [|discriminate H].
  inversion H. apply repr_float_nonempty.
Qed.

(** *** Both fields present *)

Lemma work_with_both_fields
  (w : env) (m : machine) (lines : list string) (s : string)
  (f0 f1 f2 f3 f4 : string) (tl : list string) :
  file w = Readable lines ->
  latest_sentence lines = Some s ->
  Py.split ","%char s = f0 :: f1 :: f2 :: f3 :: f4 :: tl ->
  f1 <> EmptyString -> f3 <> EmptyString ->
  let i := it (tick m) in
  work w (now w) (tick m)
  = match convert_to_decimal_deg f1 "lat" with
    | Raise e =>
        (Raise e,
         mkMachine (Some (f0 :: f1 :: f2 :: f3 :: f4 :: tl)) (error m) i
                   (trace m))
    | Ok v1 =>
        match convert_to_decimal_deg f3 "long" with
        | Raise e =>
            (Raise e,
             mkMachine (Some (f0 :: v1 :: f2 :: f3 :: f4 :: tl)) (error m) i
                       (trace m))
        | Ok v3 =>
            match log_failure w with
            | Some msg =>
                (Raise (mkExn OSError msg),
                 mkMachine (Some (f0 :: v1 :: f2 :: v3 :: f4 :: tl))
                           (error m) i (trace m))
            | None =>
                (Ok tt,
                 mkMachine
                   (Some (f0 :: shown v1 i :: f2 :: shown v3 i :: f4 :: tl))
                   (if error m =? 1 then 0 else error m) i
                   ((trace m ++
                     [Append "debug.log" (log_record (now w) v1 f2 v3 f4)])
                    ++ [Print (status_line (fst (rewind (error m))) (now w)
                                 (shown v1 i) (comma_of f2) f2 (shown v3 i) f4
                                 (snd (rewind (error m))))]))
            end
        end
    end.
Proof.
  intros Hf Hs Hp H1 H3 i. subst i.
  unfold work, read_file. rewrite Hf. unfold bind at 1.
  rewrite scan_parts, Hs, Hp.
  destruct m as [ps err i tr]. cbn [tick parts error it trace].
  destruct f1 as [|c1 f1']; [congruence|].
  destruct f3 as [|c3 f3']; [congruence|].
  unfold rewind, shown. run_work.
  destruct (convert_to_decimal_deg (String c1 f1') "lat") as [v1|e1];
    [|reflexivity].
  run_work.
  destruct (convert_to_decimal_deg (String c3 f3') "long") as [v3|e3];
    [|reflexivity].
  run_work.
  destruct (log_failure w) as [msg|]; [reflexivity|].
  run_work.
  destruct v1 as [|a1 v1'], v3 as [|a3 v3'];
    run_work; destruct (err =? 1); run_work; reflexivity.
Qed.

(** The status line that the statements before the sleep draw, with the
    labels written out. *)
Lemma work_draws_fields
  (w : env) (m m1 : machine) (lines : list string) (s : string)
  (f0 f1 f2 f3 f4 : string) (tl : list string) :
  file w = Readable lines ->
  latest_sentence lines = Some s ->
  Py.split ","%char s = f0 :: f1 :: f2 :: f3 :: f4 :: tl ->
  work w (now w) (tick m) = (Ok tt, m1) ->
  exists r1 r3 before start comma end_,
    rendered "lat" f1 f3 (it (tick m)) = Ok r1
    /\ rendered "long" f3 f1 (it (tick m)) = Ok r3
    /\ trace m1
       = (trace m ++ before ++
          [Print (ESC ++ "[93m" ++ start ++ now w ++ " " ++ ESC ++ "[97m| "
                  ++ ESC ++ "[92mLong: " ++ ESC ++ "[37m" ++ r1 ++ comma
                  ++ " " ++ ESC ++ "[37m" ++ f2 ++ " " ++ ESC ++ "[97m| "
                  ++ ESC ++ "[92mLat: " ++ ESC ++ "[37m" ++ r3 ++ comma
                  ++ " " ++ ESC ++ "[37m" ++ f4 ++ end_)])%list.
Proof.
  intros Hf Hs Hp Hw.
  assert (Hcases : (f1 = EmptyString \/ f3 = EmptyString)
                   \/ (f1 <> EmptyString /\ f3 <> EmptyString)).
  { destruct f1; [now left; left|]. destruct f3; [now left; right|].
    right. split; discriminate. }
  destruct Hcases as [He|[H1 H3]].
  - rewrite (work_with_empty_field w m lines s f0 f1 f2 f3 f4 tl Hf Hs Hp He)
      in Hw.
    inversion Hw; subst m1; clear Hw. cbn [trace].
    exists (shown f1 (it (tick m))), (shown f3 (it (tick m))), [],
      (fst (rewind (error m))), (comma_of f2), (snd (rewind (error m))).
    repeat split.
    + unfold rendered, shown. destruct f1; [reflexivity|].
      destruct He as [He|He]; [discriminate He|now subst f3].
    + unfold rendered, shown. destruct f3; [reflexivity|].
      destruct He as [He|He]; [now subst f1|discriminate He].
  - rewrite (work_with_both_fields w m lines s f0 f1 f2 f3 f4 tl
               Hf Hs Hp H1 H3) in Hw.
    destruct (convert_to_decimal_deg f1 "lat") as [v1|e1] eqn:E1;
      [|discriminate Hw].
    destruct (convert_to_decimal_deg f3 "long") as [v3|e3] eqn:E3;
      [|discriminate Hw].
    destruct (log_failure w) as [msg|]; [discriminate Hw|].
    inversion Hw; subst m1; clear Hw. cbn [trace].
    rewrite (shown_nonempty v1 _ (convert_nonempty _ _ _ E1)).
    rewrite (shown_nonempty v3 _ (convert_nonempty _ _ _ E3)).
    exists v1, v3, [Append "debug.log" (log_record (now w) v1 f2 v3 f4)],
      (fst (rewind (error m))), (comma_of f2), (snd (rewind (error m))).
    repeat split.
    + unfold rendered. destruct f1; [congruence|].
      destruct f3; [congruence|]. exact E1.
    + unfold rendered. destruct f3; [congruence|].
      destruct f1; [congruence|]. exact E3.
    + now rewrite <- app_assoc.
Qed.

(** C9: in the status line of an iteration the value drawn from the
    latitude field (field 1) stands after the label [Long:] and the value
    drawn from the longitude field (field 3) after the label [Lat:]; each is
    followed by the hemisphere letter of its own field. *)
Theorem labels_are_swapped
  (d : interval) (w : env) (m m1 : machine) (lines : list string)
  (s : string) (f0 f1 f2 f3 f4 : string) (tl : list string) :
  file w = Readable lines ->
  latest_sentence lines = Some s ->
  Py.split ","%char s = f0 :: f1 :: f2 :: f3 :: f4 :: tl ->
  work w (now w) (tick m) = (Ok tt, m1) ->
  exists r1 r3 before start comma end_ m' rest,
    rendered "lat" f1 f3 (it (tick m)) = Ok r1
    /\ rendered "long" f3 f1 (it (tick m)) = Ok r3
    /\ iteration d w m = Running m'
    /\ trace m'
       = (trace m ++ before ++
          [Print (ESC ++ "[93m" ++ start ++ now w ++ " " ++ ESC ++ "[97m| "
                  ++ ESC ++ "[92mLong: " ++ ESC ++ "[37m" ++ r1 ++ comma
                  ++ " " ++ ESC ++ "[37m" ++ f2 ++ " " ++ ESC ++ "[97m| "
                  ++ ESC ++ "[92mLat: " ++ ESC ++ "[37m" ++ r3 ++ comma
                  ++ " " ++ ESC ++ "[37m" ++ f4 ++ end_)] ++ rest)%list.
Proof.
  intros Hf Hs Hp Hw.
  destruct (work_draws_fields w m m1 lines s f0 f1 f2 f3 f4 tl Hf Hs Hp Hw)
    as (r1 & r3 & before & start & comma & end_ & H1 & H3 & Ht).
  destruct (iteration_after_work d w m m1 Hw)
    as (m' & rest & Hi & _ & Ht' & _).
  exists r1, r3, before, start, comma, end_, m', rest.
  repeat split; try assumption.
  rewrite Ht', Ht, <- !app_assoc. reflexivity.
Qed.


Lemma lone_field_is_drawn_unconverted_witness :
  exists m' r1 r3 rest,
    ((EmptyString = EmptyString
      /\ r1 = fancy_waiting "Waiting for data" (it (tick initial))
      /\ r3 = "01131.000")
     \/ ("01131.000" = EmptyString
         /\ r1 = EmptyString
         /\ r3 = fancy_waiting "Waiting for data" (it (tick initial))))
    /\ iteration (IntSeconds 1) env_no_lat initial = Running m'
    /\ parts m'
       = Some ("$GPGLL" :: r1 :: "N" :: r3 :: "E" :: ["225444"; "A" ++ NL])
    /\ trace m'
       = (trace initial
          ++ Print
               (ESC ++ "[93m"
                ++ (if error initial =? 1 then ESC ++ "[2F" else ESC ++ "[1F")
                ++ now env_no_lat ++ " " ++ ESC ++ "[97m| "
                ++ ESC ++ "[92mLong: " ++ ESC ++ "[37m" ++ r1
                ++ (if String.eqb "N" EmptyString then EmptyString
                    else ESC ++ "[97m,")
                ++ " " ++ ESC ++ "[37m" ++ "N" ++ " " ++ ESC ++ "[97m| "
                ++ ESC ++ "[92mLat: " ++ ESC ++ "[37m" ++ r3
                ++ (if String.eqb "N" EmptyString then EmptyString
                    else ESC ++ "[97m,")
                ++ " " ++ ESC ++ "[37m" ++ "E"
                ++ (if error initial =? 1 then ESC ++ "[0J" else ESC ++ "[0K"))
             :: rest)%list
    /\ existsb is_append rest = false.
Proof.
  refine (lone_field_is_drawn_unconverted
            (IntSeconds 1) env_no_lat initial [sentence_no_lat] sentence_no_lat
            "$GPGLL" EmptyString "N" "01131.000" "E" ["225444"; "A" ++ NL]
            eq_refl eq_refl eq_refl (or_introl (conj eq_refl _))).
  discriminate.
Defined.


(** C10 as stated fails: in a sentence of four fields whose longitude is
    the empty one, the latitude is never drawn: reading the fifth field for
    the line raises and only the error block is printed. *)
Lemma lone_latitude_counterexample :
  Py.split ","%char "$GPGLL,4807.038,N,"
  = ["$GPGLL"; "4807.038"; "N"; EmptyString]
  /\ iteration (IntSeconds 1) env_lone_latitude initial
     = Running
         (mkMachine
            (Some ["$GPGLL"; "4807.038"; "N"; "Waiting for data."])
            1 0
            [Print (ESC ++ "[2F" ++ "12:00:08"
                    ++ " | Bits lost... Looping again..." ++ ESC ++ "[K");
             Print ("Error: list index out of range" ++ ESC ++ "[K")]).
Proof. split; vm_compute; reflexivity. Qed.

(** The run of the specification's example without latitude. *)
Example no_lat_run :
  iteration (IntSeconds 1) env_no_lat initial
  = Running
      (mkMachine
         (Some ["$GPGLL"; "Waiting for data."; "N"; "01131.000"; "E";
                "225444"; "A" ++ NL])
         0 0
         [Print (status_line (ESC ++ "[1F") "12:00:01" "Waiting for data."
                   (ESC ++ "[97m,") "N" "01131.000" "E" (ESC ++ "[0K"));
          Sleep (IntSeconds 1)]).
Proof. vm_compute. reflexivity. Qed.

Lemma labels_are_swapped_witness :
  exists r1 r3 before start comma end_ m' rest,
    rendered "lat" "4807.038" "01131.000" (it (tick initial)) = Ok r1
    /\ rendered "long" "01131.000" "4807.038" (it (tick initial)) = Ok r3
    /\ iteration (IntSeconds 1) env_fix initial = Running m'
    /\ trace m'
       = (trace initial ++ before ++
          [Print (ESC ++ "[93m" ++ start ++ now env_fix ++ " " ++ ESC
                  ++ "[97m| " ++ ESC ++ "[92mLong: " ++ ESC ++ "[37m" ++ r1
                  ++ comma ++ " " ++ ESC ++ "[37m" ++ "N" ++ " " ++ ESC
                  ++ "[97m| " ++ ESC ++ "[92mLat: " ++ ESC ++ "[37m" ++ r3
                  ++ comma ++ " " ++ ESC ++ "[37m" ++ "E" ++ end_)]
          ++ rest)%list.
Proof.
  refine (labels_are_swapped
            (IntSeconds 1) env_fix initial after_fix [sentence_fix]
            sentence_fix "$GPGLL" "4807.038" "N" "01131.000" "E"
            ["225444"; "A" ++ NL] eq_refl eq_refl eq_refl _).
  vm_compute. reflexivity.
Defined.

(** The run of the specification's example: latitude 48.117 after [Long:],
    longitude 11.517 after [Lat:]. *)
Example fix_run :
  iteration (IntSeconds 1) env_fix initial
  = Running
      (mkMachine
         (Some ["$GPGLL"; "48.117"; "N"; "11.517"; "E"; "225444"; "A" ++ NL])
         0 0
         [Append "debug.log"
            (ESC ++ "[93,m12:00:00, 48.117, N, 11.517, E" ++ NL);
          Print (ESC ++ "[93m" ++ ESC ++ "[1F12:00:00 " ++ ESC ++ "[97m| "
                 ++ ESC ++ "[92mLong: " ++ ESC ++ "[37m48.117" ++ ESC
                 ++ "[97m, " ++ ESC ++ "[37mN " ++ ESC ++ "[97m| " ++ ESC
                 ++ "[92mLat: " ++ ESC ++ "[37m11.517" ++ ESC ++ "[97m, "
                 ++ ESC ++ "[37mE" ++ ESC ++ "[0K");
          Sleep (IntSeconds 1)]).
Proof. vm_compute. reflexivity. Qed.

(** *** Failures *)

Lemma read_file_result (w : env) (m : machine) :
  (exists ps, read_file w m
              = (Ok tt, mkMachine ps (error m) (it m) (trace m)))
  \/ (exists e, read_file w m = (Raise e, m)).
Proof.
  unfold read_file. destruct (file w) as [lines|msg].
  - left. rewrite scan_parts. now eexists.
  - right. now eexists.
Qed.

(** A failure in the statements after the read leaves nothing on the
    terminal or in the log: the record is appended, and the status line
    printed, only once nothing can fail any more. *)
Lemma after_read_silent (w : env) (t : string) (m m1 : machine) (e : exn) :
  (convert_block w t;; waiting_block;; redraw t)%stmt m = (Raise e, m1) ->
  trace m1 = trace m.
Proof.
  intro H.
  destruct m as [[ps|] err i tr]; [|inversion H; reflexivity].
  destruct ps as [|f0 [|f1 [|f2 [|f3 [|f4 tl]]]]];
    try (inversion H; reflexivity).
  all: run_work_in H.
  all: repeat (split_case H; run_work_in H).
  all: try discriminate H.
  all: try (inversion H; reflexivity).
Qed.

Lemma work_silent (w : env) (t : string) (m m1 : machine) (e : exn) :
  work w t m = (Raise e, m1) -> trace m1 = trace m.
Proof.
  unfold work. unfold bind at 1. intro H.
  destruct (read_file_result w m) as [[ps Hr]|[e' Hr]]; rewrite Hr in H.
  - apply after_read_silent in H. exact H.
  - now inversion H.
Qed.

(** C7: whenever a statement of [try:] before the sleep fails, the handler
    prints the two-line error block, the first line rewinding two lines,
    and sets the error flag; these two lines are all the iteration emits, so
    the loop restarts without sleeping. *)
Theorem failure_prints_error_block
  (d : interval) (w : env) (m m1 : machine) (e : exn) :
  work w (now w) (tick m) = (Raise e, m1) ->
  exists m',
    iteration d w m = Running m'
    /\ error m' = 1
    /\ trace m'
       = (trace m ++
          [Print (ESC ++ "[2F" ++ now w ++ " | Bits lost... Looping again..."
                  ++ ESC ++ "[K");
           Print ("Error: " ++ exn_message e ++ ESC ++ "[K")])%list
    /\ existsb is_sleep
         [Print (ESC ++ "[2F" ++ now w ++ " | Bits lost... Looping again..."
                 ++ ESC ++ "[K");
          Print ("Error: " ++ exn_message e ++ ESC ++ "[K")] = false.
Proof.
  intro H. pose proof (work_silent _ _ _ _ _ H) as Ht.
  unfold iteration, try_block. unfold bind at 1. rewrite H.
  rewrite every_kind_is_caught, handler_result.
  eexists. split; [reflexivity|]. cbn [error trace]. rewrite Ht.
  repeat split.
Qed.

Lemma failure_prints_error_block_witness :
  exists m',
    iteration (IntSeconds 1) env_missing initial = Running m'
    /\ error m' = 1
    /\ trace m'
       = (trace initial ++
          [Print (ESC ++ "[2F" ++ "12:00:02"
                  ++ " | Bits lost... Looping again..." ++ ESC ++ "[K");
           Print ("Error: "
                  ++ "[Errno 2] No such file or directory: 'putty.log'"
                  ++ ESC ++ "[K")])%list
    /\ existsb is_sleep
         [Print (ESC ++ "[2F" ++ "12:00:02"
                 ++ " | Bits lost... Looping again..." ++ ESC ++ "[K");
          Print ("Error: "
                 ++ "[Errno 2] No such file or directory: 'putty.log'"
                 ++ ESC ++ "[K")] = false.
Proof.
  exact (failure_prints_error_block
           (IntSeconds 1) env_missing initial (tick initial)
           (mkExn OSError "[Errno 2] No such file or directory: 'putty.log'")
           eq_refl).
Defined.

(** *** The iteration after an error *)







(** * Further properties of the program *)

(** ** What one iteration does, in every state *)

Lemma after_read_cases (w : env) (t : string) (m m1 : machine)
  (r : result unit) :
  (convert_block w t;; waiting_block;; redraw t)%stmt m = (r, m1) ->
  it m1 = it m
  /\ ((exists e, r = Raise e /\ trace m1 = trace m)
      \/ (r = Ok tt
          /\ error m1 = (if error m =? 1 then 0 else error m)
          /\ exists evs p1 comma p2 p3 p4,
              trace m1
              = (trace m ++ evs ++
                 [Print (status_line (fst (rewind (error m))) t p1 comma p2
                           p3 p4 (snd (rewind (error m))))])%list
              /\ (evs = []
                  \/ exists record, evs = [Append "debug.log" record]))).
Proof.
  intro H. unfold rewind.
  destruct m as [[ps|] err i tr]; cbn [error it trace];
    [|inversion H; split; [reflexivity|left; now eexists]].
  destruct ps as [|f0 [|f1 [|f2 [|f3 [|f4 tl]]]]];
    try (inversion H; split; [reflexivity|left; now eexists]).
  all: run_work_in H.
  all: repeat (split_case H; run_work_in H).
  all: inversion H; subst r m1; cbn [error it trace fst snd];
    (split; [reflexivity|]).
  all: first
         [ left; eexists; split; reflexivity
         | right; split; [reflexivity|]; split; [reflexivity|];
           first
             [ exists []; do 5 eexists; split; [reflexivity|now left]
             | eexists [_]; do 5 eexists; split;
               [rewrite <- app_assoc; reflexivity|right; now eexists] ] ].
Qed.

Lemma work_cases (w : env) (t : string) (m m1 : machine) (r : result unit) :
  work w t m = (r, m1) ->
  it m1 = it m
  /\ ((exists e, r = Raise e /\ trace m1 = trace m)
      \/ (r = Ok tt
          /\ error m1 = (if error m =? 1 then 0 else error m)
          /\ exists evs p1 comma p2 p3 p4,
              trace m1
              = (trace m ++ evs ++
                 [Print (status_line (fst (rewind (error m))) t p1 comma p2
                           p3 p4 (snd (rewind (error m))))])%list
              /\ (evs = []
                  \/ exists record, evs = [Append "debug.log" record]))).
Proof.
  unfold work. unfold bind at 1. intro H.
  destruct (read_file_result w m) as [[ps Hr]|[e Hr]]; rewrite Hr in H.
  - apply after_read_cases in H. exact H.
  - inversion H. split; [reflexivity|]. left. now eexists.
Qed.

(** The effect of one iteration on the counter, the trace and the flag. *)
Lemma iteration_cases (d : interval) (w : env) (m : machine) :
  exists m' evs,
    iteration d w m = Running m'
    /\ it m' = it (tick m)
    /\ trace m' = (trace m ++ evs)%list
    /\ emitted d (now w) evs
    /\ ((raises d w m /\ error m' = 1 /\ existsb is_sleep evs = false)
        \/ (completes d w m
            /\ error m' = (if error m =? 1 then 0 else error m)
            /\ existsb is_sleep evs = true)).
Proof.
  unfold iteration, raises, completes, try_block. unfold bind.
  destruct (work w (now w) (tick m)) as [r m1] eqn:Hw.
  destruct (work_cases _ _ _ _ _ Hw) as [Hit [(e & -> & Ht)|Hok]].
  - rewrite every_kind_is_caught, handler_result.
    eexists. exists (error_block (now w) (exn_message e)).
    cbn [it trace error]. rewrite Ht. cbn [tick trace].
    repeat split; [exact Hit|constructor|].
    left. split; [now exists e, m1|split; reflexivity].
  - destruct Hok as (-> & He & evs & p1 & comma & p2 & p3 & p4 & Ht & Hevs).
    cbn [tick trace error] in Ht, He.
    destruct (sleep_result w d m1) as [Hs|[e Hs]]; rewrite Hs.
    + eexists. eexists. cbn [it trace error]. rewrite Ht, <- !app_assoc.
      split; [reflexivity|]. split; [exact Hit|]. split; [reflexivity|].
      split.
      * destruct Hevs as [->|[record ->]]; constructor.
      * right. split; [now eexists|]. split; [exact He|].
        destruct Hevs as [->|[record ->]]; reflexivity.
    + rewrite every_kind_is_caught, handler_result.
      eexists. eexists. cbn [it trace error]. rewrite Ht, <- !app_assoc.
      split; [reflexivity|]. split; [exact Hit|]. split; [reflexivity|].
      split.
      * destruct Hevs as [->|[record ->]]; constructor.
      * left. split; [now exists e, m1|]. split; [reflexivity|].
        destruct Hevs as [->|[record ->]]; reflexivity.
Qed.

Lemma run_invariant (P : machine -> Prop) (d : interval) :
  (forall w m m', P m -> iteration d w m = Running m' -> P m') ->
  forall ws m m', P m -> run d ws m = Running m' -> P m'.
Proof.
  intros Hstep ws. induction ws as [|w rest IH]; intros m m' Hm Hrun.
  - cbn [run] in Hrun. injection Hrun as <-. exact Hm.
  - cbn [run] in Hrun.
    destruct (iteration d w m) as [m1|e m1] eqn:Hi; [|discriminate Hrun].
    exact (IH _ _ (Hstep _ _ _ Hm Hi) Hrun).
Qed.

(** X3: whatever the state, the file and the interval, one iteration adds to
    the trace one of five sequences: the error block; the status line and
    the sleep; the log record, the status line and the sleep; or the last
    two with the error block in place of a sleep that raised. So every
    iteration prints to the terminal, and appends at most one record, always
    to [debug.log] and right before the status line. *)
Theorem iteration_emits (d : interval) (w : env) (m : machine) :
  exists m' evs,
    iteration d w m = Running m'
    /\ trace m' = (trace m ++ evs)%list
    /\ emitted d (now w) evs.
Proof.
  destruct (iteration_cases d w m) as (m' & evs & Hi & _ & Ht & He & _).
  now exists m', evs.
Qed.

(** ** The counter and the error flag along a run *)

Lemma tick_counter (m : machine) :
  -1 <= it m <= 2 -> it (tick m) = (it m + 1) mod 3.
Proof.
  intro H. cbn [tick it].
  assert (Hc : it m = -1 \/ it m = 0 \/ it m = 1 \/ it m = 2) by lia.
  destruct Hc as [->|[->|[->| ->]]]; reflexivity.
Qed.

Lemma iteration_counter (d : interval) (w : env) (m m' : machine) :
  iteration d w m = Running m' -> it m' = it (tick m).
Proof.
  intro H. destruct (iteration_cases d w m) as (m1 & evs & Hi & Hit & _).
  rewrite Hi in H. injection H as <-. exact Hit.
Qed.

Lemma run_counter (d : interval) (ws : list env) :
  forall w m m',
    -1 <= it m <= 2 ->
    run d (w :: ws) m = Running m' ->
    it m' = (it m + 1 + Z.of_nat (List.length ws)) mod 3.
Proof.
  induction ws as [|w2 rest IH]; intros w m m' Hm Hrun.
  - cbn [run] in Hrun.
    destruct (iteration d w m) as [m1|e m1] eqn:Hi; [|discriminate Hrun].
    injection Hrun as <-. rewrite (iteration_counter _ _ _ _ Hi).
    rewrite (tick_counter m Hm). cbn [List.length Z.of_nat].
    now rewrite Z.add_0_r.
  - change (run d (w :: w2 :: rest) m)
      with (match iteration d w m with
            | Running m1 => run d (w2 :: rest) m1
            | Crashed e m1 => Crashed e m1
            end) in Hrun.
    destruct (iteration d w m) as [m1|e m1] eqn:Hi; [|discriminate Hrun].
    assert (H1 : it m1 = (it m + 1) mod 3).
    { rewrite (iteration_counter _ _ _ _ Hi). now apply tick_counter. }
    assert (Hb : -1 <= it m1 <= 2).
    { rewrite H1. pose proof (Z.mod_pos_bound (it m + 1) 3). lia. }
    rewrite (IH _ _ _ Hb Hrun), H1.
    cbn [List.length]. rewrite Nat2Z.inj_succ.
    rewrite <- Z.add_assoc, Zplus_mod_idemp_l. f_equal. lia.
Qed.

(** X1: the animation counter advances on every iteration, failed ones
    included, and cycles through 0, 1, 2: after [n + 1] iterations it is
    [n mod 3], so [fancy_waiting] is only ever called with 0, 1 or 2. *)
Theorem counter_cycles (d : interval) (w : env) (ws : list env) :
  exists m',
    run d (w :: ws) initial = Running m'
    /\ it m' = Z.of_nat (List.length ws) mod 3
    /\ 0 <= it m' <= 2.
Proof.
  destruct (run_runs d (w :: ws) initial) as [m' Hrun].
  exists m'. split; [exact Hrun|].
  assert (H : it m' = Z.of_nat (List.length ws) mod 3).
  { rewrite (run_counter d ws w initial m'); [|cbn; lia|exact Hrun].
    cbn [initial it]. f_equal; lia. }
  split; [exact H|].
  rewrite H. pose proof (Z.mod_pos_bound (Z.of_nat (List.length ws)) 3). lia.
Qed.

Lemma iteration_flag (d : interval) (w : env) (m m' : machine) :
  error m = 0 \/ error m = 1 ->
  iteration d w m = Running m' ->
  (raises d w m /\ error m' = 1) \/ (completes d w m /\ error m' = 0).
Proof.
  intros Hm H.
  destruct (iteration_cases d w m) as (m1 & evs & Hi & _ & _ & _ & Hc).
  rewrite Hi in H. injection H as <-.
  destruct Hc as [[Hc [He _]]|[Hc [He _]]]; [now left|].
  right. split; [exact Hc|].
  destruct Hm as [Hm|Hm]; rewrite Hm in He; exact He.
Qed.

Lemma run_flag (d : interval) (ws : list env) (m : machine) :
  run d ws initial = Running m -> error m = 0 \/ error m = 1.
Proof.
  apply (run_invariant (fun m => error m = 0 \/ error m = 1) d).
  - intros w m0 m' Hm Hi.
    destruct (iteration_flag d w m0 m' Hm Hi) as [[_ H]|[_ H]]; auto.
  - now left.
Qed.

(** X2: along any run from the initial state the error flag is 0 or 1, and
    after each iteration it tells whether that iteration raised inside
    [try:] (flag 1) or got through it (flag 0). *)
Theorem error_flag_tracks_iteration
  (d : interval) (ws : list env) (w : env) :
  exists m m',
    run d ws initial = Running m
    /\ iteration d w m = Running m'
    /\ ((raises d w m /\ error m' = 1)
        \/ (completes d w m /\ error m' = 0)).
Proof.
  destruct (run_runs d ws initial) as [m Hrun].
  destruct (iteration_runs d w m) as [m' Hi].
  exists m, m'. split; [exact Hrun|]. split; [exact Hi|].
  exact (iteration_flag d w m m' (run_flag d ws m Hrun) Hi).
Qed.

(** ** Reading the file *)

Lemma latest_none (lines : list string) :
  Forall (fun l => tagged l = false) lines -> latest_sentence lines = None.
Proof.
  induction 1 as [|l rest Hl _ IH]; [reflexivity|].
  cbn [latest_sentence]. rewrite IH. unfold tagged in Hl. now rewrite Hl.
Qed.

Lemma latest_last (pre post : list string) (s : string) :
  tagged s = true ->
  Forall (fun l => tagged l = false) post ->
  latest_sentence (pre ++ s :: post) = Some s.
Proof.
  intros Hs Hpost. induction pre as [|l pre IH].
  - cbn [app latest_sentence]. rewrite (latest_none post Hpost).
    unfold tagged in Hs. now rewrite Hs.
  - cbn [app latest_sentence]. now rewrite IH.
Qed.

Lemma latest_exists (lines : list string) :
  existsb tagged lines = true -> exists s, latest_sentence lines = Some s.
Proof.
  induction lines as [|l rest IH]; [discriminate|].
  cbn [existsb latest_sentence]. intro H.
  destruct (latest_sentence rest) as [s|]; [now exists s|].
  apply orb_prop in H. destruct H as [H|H].
  - unfold tagged in H. rewrite H. now exists l.
  - destruct (IH H) as [s Hs]. discriminate Hs.
Qed.

Lemma read_keeps_last_sentence
  (w : env) (m : machine) (pre post : list string) (s : string) :
  file w = Readable (pre ++ s :: post) ->
  tagged s = true ->
  Forall (fun l => tagged l = false) post ->
  read_file w m
  = (Ok tt, mkMachine (Some (Py.split ","%char s)) (error m) (it m) (trace m)).
Proof.
  intros Hf Hs Hpost. unfold read_file. rewrite Hf, scan_parts.
  now rewrite (latest_last pre post s Hs Hpost).
Qed.

(** X4: the scan keeps the split of the last line that starts with the tag,
    whatever stands before it in the file and whatever list was held
    before; lines after it that do not start with the tag change nothing. *)
Theorem last_sentence_wins
  (w : env) (m : machine) (pre post : list string) (s : string) :
  file w = Readable (pre ++ s :: post) ->
  tagged s = true ->
  Forall (fun l => tagged l = false) post ->
  read_file w m
  = (Ok tt, mkMachine (Some (Py.split ","%char s)) (error m) (it m) (trace m)).
Proof. exact (read_keeps_last_sentence w m pre post s). Qed.

Lemma last_sentence_wins_witness :
  read_file (mkEnv "12:00:05"
                   (Readable [sentence_fix; sentence_no_lat; "junk" ++ NL])
                   None) after_fix
  = (Ok tt,
     mkMachine (Some (Py.split ","%char sentence_no_lat)) (error after_fix)
               (it after_fix) (trace after_fix)).
Proof.
  refine (last_sentence_wins
            (mkEnv "12:00:05"
                   (Readable [sentence_fix; sentence_no_lat; "junk" ++ NL])
                   None)
            after_fix [sentence_fix] ["junk" ++ NL] sentence_no_lat
            eq_refl eq_refl _).
  repeat constructor.
Defined.

Lemma read_keeps_state (w : env) (m : machine) (lines : list string) :
  file w = Readable lines ->
  Forall (fun l => tagged l = false) lines ->
  read_file w m = (Ok tt, m).
Proof.
  intros Hf Hl. unfold read_file. rewrite Hf, scan_parts.
  rewrite (latest_none lines Hl). now destruct m.
Qed.

(** X5: when no line of the file starts with the tag (an empty file
    included) the read succeeds and leaves the machine as it was: the list
    of an earlier iteration, as its in-place assignments left it, is what
    the rest of the iteration works on. *)
Theorem read_without_sentence_keeps_state
  (w : env) (m : machine) (lines : list string) :
  file w = Readable lines ->
  Forall (fun l => tagged l = false) lines ->
  read_file w m = (Ok tt, m).
Proof. exact (read_keeps_state w m lines). Qed.

Lemma read_without_sentence_keeps_state_witness :
  read_file env_no_sentence after_fix = (Ok tt, after_fix).
Proof.
  refine (read_without_sentence_keeps_state
            env_no_sentence after_fix ["$GPRMC,225446,A" ++ NL] eq_refl _).
  repeat constructor.
Defined.

Lemma work_after_read (w : env) (t : string) (m : machine) :
  work w t m
  = match read_file w m with
    | (Ok _, m1) => (convert_block w t;; waiting_block;; redraw t)%stmt m1
    | (Raise e, m1) => (Raise e, m1)
    end.
Proof. reflexivity. Qed.

Lemma try_block_after_work (d : interval) (w : env) (t : string)
  (m : machine) :
  try_block d w t m
  = match work w t m with
    | (Ok _, m1) => sleep w d m1
    | (Raise e, m1) => (Raise e, m1)
    end.
Proof. reflexivity. Qed.

(** X6: when the file holds a tagged line, the iteration does not depend on
    the list held before: a stale list only matters in iterations that find
    no sentence. *)
Theorem fresh_sentence_overrides_stale_parts
  (d : interval) (w : env) (lines : list string)
  (p1 p2 : option (list string)) (e i : Z) (tr : list event) :
  file w = Readable lines ->
  existsb tagged lines = true ->
  iteration d w (mkMachine p1 e i tr) = iteration d w (mkMachine p2 e i tr).
Proof.
  intros Hf Hl. destruct (latest_exists lines Hl) as [s Hs].
  unfold iteration. rewrite !try_block_after_work, !work_after_read.
  unfold read_file. rewrite Hf, !scan_parts, Hs. reflexivity.
Qed.

Lemma fresh_sentence_overrides_stale_parts_witness :
  iteration (IntSeconds 1) env_fix (mkMachine None 1 0 [])
  = iteration (IntSeconds 1) env_fix
              (mkMachine (Some ["$GPGLL"; "Waiting for data."]) 1 0 []).
Proof.
  exact (fresh_sentence_overrides_stale_parts
           (IntSeconds 1) env_fix [sentence_fix]
           None (Some ["$GPGLL"; "Waiting for data."]) 1 0 []
           eq_refl eq_refl).
Defined.

(** ** A stale list *)

Lemma waiting_starts_with_Wa (i : Z) :
  exists rest,
    fancy_waiting "Waiting for data" i = String "W" (String "a" rest).
Proof.
  unfold fancy_waiting.
  destruct (i =? 0); [now eexists|].
  destruct (i =? 1); [now eexists|].
  destruct (i =? 2); now eexists.
Qed.

Lemma convert_Wa (rest : string) :
  convert_to_decimal_deg (String "W" (String "a" rest)) "lat"
  = Raise (mkExn ValueError "could not convert string to float: 'Wa'").
Proof. reflexivity. Qed.

(** With the placeholder in field 1 and a longitude in field 3, an iteration
    that finds no sentence tries to convert the placeholder. *)
Lemma stale_placeholder_raises
  (d : interval) (w : env) (m : machine) (lines : list string)
  (f0 f2 f3 : string) (tl : list string) (i0 : Z) :
  parts m
  = Some (f0 :: fancy_waiting "Waiting for data" i0 :: f2 :: f3 :: tl) ->
  f3 <> EmptyString ->
  file w = Readable lines ->
  Forall (fun l => tagged l = false) lines ->
  iteration d w m
  = Running
      (mkMachine (parts m) 1 (it (tick m))
         (trace m
          ++ error_block (now w) "could not convert string to float: 'Wa'")).
Proof.
  intros Hp H3 Hf Hl.
  assert (Ht : try_block d w (now w) (tick m)
               = (Raise (mkExn ValueError
                           "could not convert string to float: 'Wa'"),
                  tick m)).
  { rewrite try_block_after_work, work_after_read.
    rewrite (read_keeps_state w (tick m) lines Hf Hl).
    destruct m as [ps err i tr]. cbn [parts] in Hp. subst ps.
    destruct (waiting_starts_with_Wa i0) as [rest ->].
    destruct f3 as [|c3 f3']; [congruence|].
    cbn [tick parts error it trace]. run_work. rewrite convert_Wa.
    reflexivity. }
  unfold iteration. rewrite Ht, every_kind_is_caught, handler_result.
  reflexivity.
Qed.

(** X7: after a sentence without latitude, an iteration that finds no
    sentence works on the list that still holds the waiting indicator in
    the latitude field: it tries to convert it, fails with a [ValueError]
    on its first two characters, and leaves the list as it was, so every
    such iteration that follows fails the same way. *)
Theorem stale_placeholder_is_reconverted
  (d : interval) (w1 w2 : env) (m : machine)
  (pre post lines2 : list string) (s f0 f2 f3 f4 : string)
  (tl : list string) :
  file w1 = Readable (pre ++ s :: post) ->
  tagged s = true ->
  Forall (fun l => tagged l = false) post ->
  Py.split ","%char s = f0 :: EmptyString :: f2 :: f3 :: f4 :: tl ->
  f3 <> EmptyString ->
  file w2 = Readable lines2 ->
  Forall (fun l => tagged l = false) lines2 ->
  exists m1 m2,
    iteration d w1 m = Running m1
    /\ parts m1
       = Some (f0 :: fancy_waiting "Waiting for data" (it (tick m)) :: f2
                  :: f3 :: f4 :: tl)
    /\ iteration d w2 m1 = Running m2
    /\ parts m2 = parts m1
    /\ error m2 = 1
    /\ trace m2
       = (trace m1
          ++ error_block (now w2)
               "could not convert string to float: 'Wa'")%list.
Proof.
  intros Hf1 Hs Hpost Hp H3 Hf2 Hl2.
  pose proof (work_with_empty_field
                w1 m (pre ++ s :: post) s f0 EmptyString f2 f3 f4 tl
                Hf1 (latest_last pre post s Hs Hpost) Hp (or_introl eq_refl))
    as Hw.
  destruct (iteration_after_work d w1 m _ Hw)
    as (m1 & rest & Hi & Hparts & _).
  cbn [parts] in Hparts.
  rewrite shown_empty, (shown_nonempty f3 _ H3) in Hparts.
  exists m1. eexists. split; [exact Hi|]. split; [exact Hparts|].
  rewrite (stale_placeholder_raises d w2 m1 lines2 f0 f2 f3 (f4 :: tl)
             (it (tick m)) Hparts H3 Hf2 Hl2).
  repeat split.
Qed.

Lemma stale_placeholder_is_reconverted_witness :
  exists m1 m2,
    iteration (IntSeconds 1) env_no_lat initial = Running m1
    /\ parts m1
       = Some ("$GPGLL"
               :: fancy_waiting "Waiting for data" (it (tick initial)) :: "N"
               :: "01131.000" :: "E" :: ["225444"; "A" ++ NL])
    /\ iteration (IntSeconds 1) env_no_sentence m1 = Running m2
    /\ parts m2 = parts m1
    /\ error m2 = 1
    /\ trace m2
       = (trace m1
          ++ error_block (now env_no_sentence)
               "could not convert string to float: 'Wa'")%list.
Proof.
  refine (stale_placeholder_is_reconverted
            (IntSeconds 1) env_no_lat env_no_sentence initial
            [] [] ["$GPRMC,225446,A" ++ NL] sentence_no_lat
            "$GPGLL" "N" "01131.000" "E" ["225444"; "A" ++ NL]
            eq_refl eq_refl _ eq_refl _ eq_refl _).
  - constructor.
  - discriminate.
  - repeat constructor.
Defined.

(** ** A complete fix *)

Lemma convert_needs_a_field (term axis v : string) :
  convert_to_decimal_deg term axis = Ok v -> term <> EmptyString.
Proof.
  intros H ->. unfold convert_to_decimal_deg in H.
  destruct (String.eqb axis "lat"); [discriminate H|].
  destruct (String.eqb axis "long"); discriminate H.
Qed.

Lemma sleep_sleepable (w : env) (d : interval) (m : machine) :
  sleepable d w ->
  sleep w d m = (Ok tt, mkMachine (parts m) (error m) (it m)
                                  (trace m ++ [Sleep d])).
Proof.
  intros (ns & Hns & Hd). unfold sleep. rewrite Hns.
  replace (0 <=? monotonic w + ns) with true
    by (symmetry; apply Z.leb_le; lia).
  replace (monotonic w + ns <? deadline_limit) with true
    by (symmetry; apply Z.ltb_lt; lia).
  reflexivity.
Qed.

(** X8: for a sentence of five fields or more whose two coordinate fields
    convert, with a log that opens and an interval that [time.sleep]
    accepts at that reading of the monotonic clock, the iteration writes
    the converted values into the list in place, appends one record with
    them to [debug.log], then draws the status line with the same values,
    then sleeps; the error flag ends at 0 if it was 1. *)
Theorem complete_fix
  (d : interval) (w : env) (m : machine) (pre post : list string)
  (s f0 f1 f2 f3 f4 : string) (tl : list string) (v1 v3 : string) :
  file w = Readable (pre ++ s :: post) ->
  tagged s = true ->
  Forall (fun l => tagged l = false) post ->
  Py.split ","%char s = f0 :: f1 :: f2 :: f3 :: f4 :: tl ->
  convert_to_decimal_deg f1 "lat" = Ok v1 ->
  convert_to_decimal_deg f3 "long" = Ok v3 ->
  log_failure w = None ->
  sleepable d w ->
  iteration d w m
  = Running
      (mkMachine (Some (f0 :: v1 :: f2 :: v3 :: f4 :: tl))
         (if error m =? 1 then 0 else error m) (it (tick m))
         (trace m ++
          [Append "debug.log"
             (ESC ++ "[93,m" ++ now w ++ ", " ++ v1 ++ ", " ++ f2 ++ ", "
              ++ v3 ++ ", " ++ f4 ++ NL);
           Print
             (ESC ++ "[93m"
                   ++ (if error m =? 1 then ESC ++ "[2F" else ESC ++ "[1F")
                   ++ now w ++ " " ++ ESC ++ "[97m| "
                   ++ ESC ++ "[92mLong: " ++ ESC ++ "[37m" ++ v1
                   ++ (if String.eqb f2 EmptyString then EmptyString
                       else ESC ++ "[97m,")
                   ++ " " ++ ESC ++ "[37m" ++ f2 ++ " " ++ ESC ++ "[97m| "
                   ++ ESC ++ "[92mLat: " ++ ESC ++ "[37m" ++ v3
                   ++ (if String.eqb f2 EmptyString then EmptyString
                       else ESC ++ "[97m,")
                   ++ " " ++ ESC ++ "[37m" ++ f4
                   ++ (if error m =? 1 then ESC ++ "[0J" else ESC ++ "[0K"));
           Sleep d])).
Proof.
  intros Hf Hs Hpost Hp E1 E3 Hlog Hd.
  pose proof (work_with_both_fields
                w m (pre ++ s :: post) s f0 f1 f2 f3 f4 tl
                Hf (latest_last pre post s Hs Hpost) Hp
                (convert_needs_a_field _ _ _ E1)
                (convert_needs_a_field _ _ _ E3)) as Hw.
  cbv zeta in Hw. rewrite E1, E3, Hlog in Hw.
  rewrite (shown_nonempty v1 _ (convert_nonempty _ _ _ E1)) in Hw.
  rewrite (shown_nonempty v3 _ (convert_nonempty _ _ _ E3)) in Hw.
  rewrite status_line_written_out in Hw.
  unfold iteration. rewrite try_block_after_work, Hw.
  rewrite (sleep_sleepable w d _ Hd). cbn [parts error it trace].
  now rewrite <- !app_assoc.
Qed.

Lemma complete_fix_witness :
  iteration (IntSeconds 1) env_fix initial
  = Running
      (mkMachine
         (Some ("$GPGLL" :: "48.117" :: "N" :: "11.517" :: "E"
                :: ["225444"; "A" ++ NL]))
         (if error initial =? 1 then 0 else error initial)
         (it (tick initial))
         (trace initial ++
          [Append "debug.log"
             (ESC ++ "[93,m" ++ now env_fix ++ ", " ++ "48.117" ++ ", "
              ++ "N" ++ ", " ++ "11.517" ++ ", " ++ "E" ++ NL);
           Print
             (ESC ++ "[93m"
                   ++ (if error initial =? 1 then ESC ++ "[2F" else ESC ++ "[1F")
                   ++ now env_fix ++ " " ++ ESC ++ "[97m| "
                   ++ ESC ++ "[92mLong: " ++ ESC ++ "[37m" ++ "48.117"
                   ++ (if String.eqb "N" EmptyString then EmptyString
                       else ESC ++ "[97m,")
                   ++ " " ++ ESC ++ "[37m" ++ "N" ++ " " ++ ESC ++ "[97m| "
                   ++ ESC ++ "[92mLat: " ++ ESC ++ "[37m" ++ "11.517"
                   ++ (if String.eqb "N" EmptyString then EmptyString
                       else ESC ++ "[97m,")
                   ++ " " ++ ESC ++ "[37m" ++ "E"
                   ++ (if error initial =? 1 then ESC ++ "[0J" else ESC ++ "[0K"));
           Sleep (IntSeconds 1)])).
Proof.
  refine (complete_fix
            (IntSeconds 1) env_fix initial [] [] sentence_fix
            "$GPGLL" "4807.038" "N" "01131.000" "E" ["225444"; "A" ++ NL]
            "48.117" "11.517" eq_refl eq_refl _ eq_refl _ _ eq_refl _).
  - constructor.
  - vm_compute. reflexivity.
  - vm_compute. reflexivity.
  - exists 1000000000. split; [reflexivity|]. vm_compute.
    split; [discriminate|reflexivity].
Defined.

(** X9: when [debug.log] cannot be opened, a sentence whose two fields
    convert is not displayed: the iteration ends with the error block that
    carries the message of the [OSError], draws no status line, and leaves
    the converted values in the list. *)
Theorem log_failure_hides_fix
  (d : interval) (w : env) (m : machine) (pre post : list string)
  (s f0 f1 f2 f3 f4 : string) (tl : list string) (v1 v3 msg : string) :
  file w = Readable (pre ++ s :: post) ->
  tagged s = true ->
  Forall (fun l => tagged l = false) post ->
  Py.split ","%char s = f0 :: f1 :: f2 :: f3 :: f4 :: tl ->
  convert_to_decimal_deg f1 "lat" = Ok v1 ->
  convert_to_decimal_deg f3 "long" = Ok v3 ->
  log_failure w = Some msg ->
  iteration d w m
  = Running
      (mkMachine (Some (f0 :: v1 :: f2 :: v3 :: f4 :: tl)) 1 (it (tick m))
                 (trace m ++ error_block (now w) msg)).
Proof.
  intros Hf Hs Hpost Hp E1 E3 Hlog.
  pose proof (work_with_both_fields
                w m (pre ++ s :: post) s f0 f1 f2 f3 f4 tl
                Hf (latest_last pre post s Hs Hpost) Hp
                (convert_needs_a_field _ _ _ E1)
                (convert_needs_a_field _ _ _ E3)) as Hw.
  cbv zeta in Hw. rewrite E1, E3, Hlog in Hw.
  unfold iteration. rewrite try_block_after_work, Hw.
  rewrite every_kind_is_caught, handler_result. reflexivity.
Qed.

Lemma log_failure_hides_fix_witness :
  iteration (IntSeconds 1) env_log_locked initial
  = Running
      (mkMachine
         (Some ("$GPGLL" :: "48.117" :: "N" :: "11.517" :: "E"
                :: ["225444"; "A" ++ NL]))
         1 (it (tick initial))
         (trace initial
          ++ error_block (now env_log_locked)
               "[Errno 13] Permission denied: 'debug.log'")).
Proof.
  refine (log_failure_hides_fix
            (IntSeconds 1) env_log_locked initial [] [] sentence_fix
            "$GPGLL" "4807.038" "N" "01131.000" "E" ["225444"; "A" ++ NL]
            "48.117" "11.517" "[Errno 13] Permission denied: 'debug.log'"
            eq_refl eq_refl _ eq_refl _ _ eq_refl).
  - constructor.
  - vm_compute. reflexivity.
  - vm_compute. reflexivity.
Defined.

(** ** The rewind after a completed iteration, and a negative interval *)




Lemma negative_timeout (n : Z) :
  n < 0 ->
  timeout_ns (IntSeconds n)
  = Raise (if n <? -9223372036
           then mkExn OverflowError
                      "timestamp too large to convert to C _PyTime_t"
           else mkExn ValueError "sleep length must be non-negative").
Proof.
  intro Hn. unfold timeout_ns.
  replace (9223372036 <? n) with false by (symmetry; apply Z.ltb_ge; lia).
  replace (n <? 0) with true by (symmetry; apply Z.ltb_lt; lia).
  destruct (n <? -9223372036); reflexivity.
Qed.

(** X11: with a negative interval, which the command line accepts, no
    iteration gets through [try:] and the loop never sleeps: every
    iteration ends with the two-line error block and the flag at 1. When
    the statements before the sleep succeed, the status line is drawn
    first and the exception in the error block is that of [time.sleep]: a
    [ValueError] down to -9223372036 seconds, an [OverflowError] below. *)
Theorem negative_interval_never_sleeps (n : Z) (w : env) (m : machine) :
  n < 0 ->
  exists e m1 pre,
    try_block (IntSeconds n) w (now w) (tick m) = (Raise e, m1)
    /\ iteration (IntSeconds n) w m
       = Running
           (mkMachine (parts m1) 1 (it (tick m))
              (trace m ++ pre ++
               [Print (ESC ++ "[2F" ++ now w
                       ++ " | Bits lost... Looping again..." ++ ESC ++ "[K");
                Print ("Error: " ++ exn_message e ++ ESC ++ "[K")]))
    /\ existsb is_sleep pre = false
    /\ (forall m2,
          work w (now w) (tick m) = (Ok tt, m2) ->
          trace m2 = (trace m ++ pre)%list
          /\ pre <> []
          /\ e = (if n <? -9223372036
                  then mkExn OverflowError
                             "timestamp too large to convert to C _PyTime_t"
                  else mkExn ValueError "sleep length must be non-negative"))
    /\ (forall e' m2,
          work w (now w) (tick m) = (Raise e', m2) -> pre = [] /\ e = e').
Proof.
  intro Hn.
  destruct (work w (now w) (tick m)) as [r m1] eqn:Hw.
  destruct (work_cases _ _ _ _ _ Hw) as [Hit [(e & -> & Ht)|Hok]].
  - exists e, m1, [].
    assert (Htry : try_block (IntSeconds n) w (now w) (tick m)
                   = (Raise e, m1))
      by (rewrite try_block_after_work; now rewrite Hw).
    split; [exact Htry|]. split; [|split; [reflexivity|split]].
    + unfold iteration. rewrite Htry, every_kind_is_caught, handler_result.
      rewrite Hit, Ht. reflexivity.
    + intros m2 H2. discriminate H2.
    + intros e' m2 H2. inversion H2. now split.
  - destruct Hok as (-> & _ & evs & p1 & comma & p2 & p3 & p4 & Ht & Hevs).
    cbn [tick trace error] in Ht.
    exists (if n <? -9223372036
            then mkExn OverflowError
                       "timestamp too large to convert to C _PyTime_t"
            else mkExn ValueError "sleep length must be non-negative"),
      m1,
      (evs ++ [Print (status_line (fst (rewind (error m))) (now w) p1 comma
                        p2 p3 p4 (snd (rewind (error m))))])%list.
    assert (Htry : try_block (IntSeconds n) w (now w) (tick m)
                   = (Raise (if n <? -9223372036
                             then mkExn OverflowError
                                    "timestamp too large to convert to C _PyTime_t"
                             else mkExn ValueError
                                    "sleep length must be non-negative"),
                      m1)).
    { rewrite try_block_after_work, Hw. unfold sleep.
      now rewrite (negative_timeout n Hn). }
    split; [exact Htry|]. split; [|split; [|split]].
    + unfold iteration. rewrite Htry, every_kind_is_caught, handler_result.
      rewrite Hit, Ht, <- !app_assoc. reflexivity.
    + destruct Hevs as [->|[record ->]]; reflexivity.
    + intros m2 H2. inversion H2; subst m2. split; [exact Ht|].
      split; [|reflexivity].
      destruct Hevs as [->|[record ->]]; discriminate.
    + intros e' m2 H2. discriminate H2.
Qed.

Lemma negative_interval_never_sleeps_witness :
  exists e m1 pre,
    try_block (IntSeconds (-3)) env_fix (now env_fix) (tick initial)
    = (Raise e, m1)
    /\ iteration (IntSeconds (-3)) env_fix initial
       = Running
           (mkMachine (parts m1) 1 (it (tick initial))
              (trace initial ++ pre ++
               [Print (ESC ++ "[2F" ++ now env_fix
                       ++ " | Bits lost... Looping again..." ++ ESC ++ "[K");
                Print ("Error: " ++ exn_message e ++ ESC ++ "[K")]))
    /\ existsb is_sleep pre = false
    /\ (forall m2,
          work env_fix (now env_fix) (tick initial) = (Ok tt, m2) ->
          trace m2 = (trace initial ++ pre)%list
          /\ pre <> []
          /\ e = (if -3 <? -9223372036
                  then mkExn OverflowError
                             "timestamp too large to convert to C _PyTime_t"
                  else mkExn ValueError "sleep length must be non-negative"))
    /\ (forall e' m2,
          work env_fix (now env_fix) (tick initial) = (Raise e', m2) ->
          pre = [] /\ e = e').
Proof.
  refine (negative_interval_never_sleeps (-3) env_fix initial _).
  reflexivity.
Defined.

(** ** The converter on other fields *)

Lemma float_raises_ValueError (s : string) (e : exn) :
  Py.float s = Raise e -> exn_kind_of e = ValueError.
Proof.
  unfold Py.float. destruct (Py.float_of_chars (Py.chars s)); intro H;
    [discriminate H|].
  now inversion H.
Qed.

Ltac convert_short :=
  repeat
    (cbn -[Py.float Py.repr_float Py.round Py.fadd Py.fdiv Py.of_Z];
     try match goal with
         | |- context [Py.float ?s] =>
             let E := fresh "E" in
             destruct (Py.float s) as [?|?e] eqn:E
         end);
  eexists; (split; [reflexivity|]); cbn [exn_kind_of];
  first [ now left
        | right; eapply float_raises_ValueError; eassumption ].

(** X12: a field that is too short never converts: with fewer than eight
    characters the longitude branch raises, and with fewer than seven the
    latitude branch does, an [IndexError] from the indexing or a
    [ValueError] from [float]. *)
Theorem short_field_raises (term : string) :
  (String.length term < 8)%nat ->
  (exists e, convert_to_decimal_deg term "long" = Raise e
             /\ (exn_kind_of e = IndexError \/ exn_kind_of e = ValueError))
  /\ ((String.length term < 7)%nat ->
      exists e, convert_to_decimal_deg term "lat" = Raise e
                /\ (exn_kind_of e = IndexError
                    \/ exn_kind_of e = ValueError)).
Proof.
  intro H.
  destruct term as [|c0 [|c1 [|c2 [|c3 [|c4 [|c5 [|c6 [|c7 rest]]]]]]]];
    cbn [String.length] in H; try lia.
  all: split; [|intro H7; cbn [String.length] in H7; try lia];
    unfold convert_to_decimal_deg;
    change (String.eqb "long" "lat") with false;
    change (String.eqb "long" "long") with true;
    change (String.eqb "lat" "lat") with true;
    convert_short.
Qed.

Lemma short_field_raises_witness :
  (exists e, convert_to_decimal_deg "48.117" "long" = Raise e
             /\ (exn_kind_of e = IndexError \/ exn_kind_of e = ValueError))
  /\ ((String.length "48.117" < 7)%nat ->
      exists e, convert_to_decimal_deg "48.117" "lat" = Raise e
                /\ (exn_kind_of e = IndexError
                    \/ exn_kind_of e = ValueError)).
Proof.
  refine (short_field_raises "48.117" _). cbn. lia.
Defined.

(** X13: the two branches differ only in the width of the degrees: a
    longitude with a leading zero converts to the same string as the
    latitude made of its remaining characters. *)
Theorem longitude_with_leading_zero
  (d0 d1 m0 m1 sep f0 f1 : ascii) (rest : string) :
  Forall (fun c => Py.is_digit c = true) [d0; d1; m0; m1; f0; f1] ->
  exists v,
    convert_to_decimal_deg
      (str ["0"%char; d0; d1; m0; m1; sep; f0; f1] ++ rest) "long" = Ok v
    /\ convert_to_decimal_deg
         (str [d0; d1; m0; m1; sep; f0; f1] ++ rest) "lat" = Ok v.
Proof.
  intro H. eexists. split.
  - rewrite (convert_long_layout "0" d0 d1 m0 m1 sep f0 f1 rest).
    + reflexivity.
    + constructor; [reflexivity|exact H].
  - now rewrite (convert_lat_layout d0 d1 m0 m1 sep f0 f1 rest H).
Qed.

Lemma longitude_with_leading_zero_witness :
  exists v,
    convert_to_decimal_deg "04807.038" "long" = Ok v
    /\ convert_to_decimal_deg "4807.038" "lat" = Ok v.
Proof.
  refine (longitude_with_leading_zero "4" "8" "0" "7" "." "0" "3" "8" _).
  repeat constructor.
Defined.

(** ** Integer values of [--time] *)

Lemma digit_not_underscore (c : ascii) :
  Py.is_digit c = true -> Ascii.eqb c "_" = false.
Proof.
  intro H. destruct (Ascii.eqb c "_") eqn:E; [|reflexivity].
  apply Ascii.eqb_eq in E. subst c. discriminate H.
Qed.

Lemma digit_not_space (c : ascii) :
  Py.is_digit c = true -> Py.is_space c = false.
Proof.
  intro H. apply is_digit_In in H. cbn [digits In] in H.
  repeat (destruct H as [<-|H]; [reflexivity|]). destruct H.
Qed.

Lemma int_digits_of_digits (ds : list ascii) :
  Forall (fun c => Py.is_digit c = true) ds ->
  forall prev, Ascii.eqb prev "_" = false ->
               Py.int_digits prev ds = Some (ds, []).
Proof.
  induction 1 as [|c t Hc _ IH]; intros prev Hprev.
  - cbn [Py.int_digits]. now rewrite Hprev.
  - cbn [Py.int_digits].
    rewrite (digit_not_underscore c Hc), Hc.
    now rewrite (IH c (digit_not_underscore c Hc)).
Qed.

Lemma int_of_digits (neg : bool) (c : ascii) (t : list ascii) :
  Forall (fun c => Py.is_digit c = true) (c :: t) ->
  (List.length (c :: t) <= 4300)%nat ->
  Py.int (str ((if neg then ["-"%char] else []) ++ c :: t))
  = Some (cond_Zopp neg (Py.Z_of_digits 0 (c :: t))).
Proof.
  intros Hd Hlen.
  pose proof (int_digits_of_digits (c :: t) Hd "000"%char eq_refl) as Hi.
  assert (Hl : (4300 <? List.length (c :: t))%nat = false)
    by (apply Nat.ltb_ge; exact Hlen).
  unfold Py.int, Py.chars, str. rewrite list_ascii_of_string_of_list_ascii.
  inversion Hd as [|c' t' Hc Ht]; subst.
  assert (Hs : Py.lstrip ((if neg then ["-"%char] else []) ++ c :: t)
               = ((if neg then ["-"%char] else []) ++ c :: t)%list).
  { destruct neg; cbn [app Py.lstrip].
    - reflexivity.
    - now rewrite (digit_not_space c Hc). }
  rewrite Hs. clear Hs.
  apply is_digit_In in Hc. cbn [digits In] in Hc.
  destruct neg; cbn [app];
    repeat (destruct Hc as [<-|Hc];
            [cbn [Py.take_sign]; rewrite Hi; cbn [Py.lstrip]; rewrite Hl;
             reflexivity|]);
    destruct Hc.
Qed.

(** X14: every plain decimal numeral of at most 4300 digits is accepted as
    the value of [--time] and yields that integer, and with a minus sign in
    front it yields the negative integer: the parser refuses no integer for
    being out of the range the loop can sleep. *)
Theorem decimal_numeral_is_accepted
  (out : option string) (c : ascii) (t : list ascii) :
  Forall (fun c => Py.is_digit c = true) (c :: t) ->
  (List.length (c :: t) <= 4300)%nat ->
  parse_args out (Some (str (c :: t)))
  = Parsed (mkArgs (IntSeconds (Py.Z_of_digits 0 (c :: t)))
                   (match out with Some s => s | None => "putty.log" end))
  /\ parse_args out (Some (str ("-"%char :: c :: t)))
     = Parsed (mkArgs (IntSeconds (- Py.Z_of_digits 0 (c :: t)))
                      (match out with Some s => s | None => "putty.log" end)).
Proof.
  intros Hd Hlen. unfold parse_args. split.
  - pose proof (int_of_digits false c t Hd Hlen) as H.
    cbn [app cond_Zopp] in H. now rewrite H.
  - pose proof (int_of_digits true c t Hd Hlen) as H.
    cbn [app cond_Zopp] in H. now rewrite H.
Qed.

Lemma decimal_numeral_is_accepted_witness :
  parse_args None (Some "30") = Parsed (mkArgs (IntSeconds 30) "putty.log")
  /\ parse_args None (Some "-30")
     = Parsed (mkArgs (IntSeconds (-30)) "putty.log").
Proof.
  refine (decimal_numeral_is_accepted None "3" ["0"%char] _ _).
  - repeat constructor.
  - cbn. lia.
Defined.

(** ** A sentence with too few fields *)

Lemma too_few_fields_raise (w : env) (t : string) (m m1 : machine)
  (r : result unit) (ps : list string) :
  (convert_block w t;; waiting_block;; redraw t)%stmt m = (r, m1) ->
  parts m = Some ps ->
  (List.length ps < 5)%nat ->
  exists e, r = Raise e.
Proof.
  intros H Hp Hlen.
  destruct m as [ps' err i tr]. cbn [parts] in Hp. subst ps'.
  destruct ps as [|f0 [|f1 [|f2 [|f3 [|f4 tl]]]]];
    cbn [List.length] in Hlen; try lia.
  all: run_work_in H.
  all: repeat (split_case H; run_work_in H).
  all: inversion H; now eexists.
Qed.

(** X15: a sentence with fewer than five fields, that is with fewer than
    four commas, is never displayed: whatever its fields hold, the iteration
    raises, prints only the error block and sets the error flag. *)
Theorem short_sentence_is_not_displayed
  (d : interval) (w : env) (m : machine) (pre post : list string)
  (s : string) :
  file w = Readable (pre ++ s :: post) ->
  tagged s = true ->
  Forall (fun l => tagged l = false) post ->
  (List.length (Py.split ","%char s) < 5)%nat ->
  exists m' msg,
    iteration d w m = Running m'
    /\ raises d w m
    /\ error m' = 1
    /\ trace m' = (trace m ++ error_block (now w) msg)%list.
Proof.
  intros Hf Hs Hpost Hlen.
  destruct (work w (now w) (tick m)) as [r m1] eqn:Hw.
  pose proof Hw as Hw'. rewrite work_after_read in Hw'.
  rewrite (read_keeps_last_sentence w (tick m) pre post s Hf Hs Hpost) in Hw'.
  destruct (too_few_fields_raise _ _ _ _ _ _ Hw' eq_refl Hlen) as [e ->].
  pose proof (work_silent _ _ _ _ _ Hw) as Ht.
  assert (Htry : try_block d w (now w) (tick m) = (Raise e, m1))
    by (rewrite try_block_after_work; now rewrite Hw).
  eexists. exists (exn_message e).
  unfold iteration. rewrite Htry, every_kind_is_caught, handler_result.
  cbn [error trace]. rewrite Ht.
  repeat split. now exists e, m1.
Qed.

Lemma short_sentence_is_not_displayed_witness :
  exists m' msg,
    iteration (IntSeconds 1)
              (mkEnv "12:00:06" (Readable ["$GPGLL,,N" ++ NL]) None) initial
    = Running m'
    /\ raises (IntSeconds 1)
              (mkEnv "12:00:06" (Readable ["$GPGLL,,N" ++ NL]) None) initial
    /\ error m' = 1
    /\ trace m' = (trace initial ++ error_block "12:00:06" msg)%list.
Proof.
  refine (short_sentence_is_not_displayed
            (IntSeconds 1)
            (mkEnv "12:00:06" (Readable ["$GPGLL,,N" ++ NL]) None) initial
            [] [] ("$GPGLL,,N" ++ NL) eq_refl eq_refl _ _).
  - constructor.
  - cbn. lia.
Defined.
